(** * Plenzo: the deal scraper, its HTTP wrapper and the front-end fetcher

    A shallow embedding of
    - [src/plenzo_nogui.py] : [plenzo_search], the Selenium scraper;
    - [src/app.py]          : [api_search], the Flask route [/api/search];
    - [src/__main__.py]     : [fetchWithBackoff], the retrying fetch of the
                              React front-end;
    followed by the properties of these three functions. *)

From Stdlib Require Import List Sorted String Ascii Bool Arith ZArith NArith QArith Qpower
  DecimalString Lia Lqa.
Import ListNotations.
Close Scope Q_scope.

Set Implicit Arguments.
Set Warnings "-register-all".

(* ================================================================= *)
(** ** Python strings *)

(** A Python [str] is a sequence of Unicode code points. *)
Module Py.

Definition str : Type := list N.

(** An ASCII literal of the source as a [str]. *)
Definition lit (s : string) : str :=
  map N_of_ascii (list_ascii_of_string s).

Fixpoint eqb (s t : str) : bool :=
  match s, t with
  | [], [] => true
  | c :: s', d :: t' => N.eqb c d && eqb s' t'
  | _, _ => false
  end.

(** [c.isspace()]: the code points that [str.strip()] removes when it is
    called without an argument. *)
Definition isspace (c : N) : bool :=
  ((9 <=? c) && (c <=? 13) ||
   (28 <=? c) && (c <=? 32) ||
   (c =? 133) || (c =? 160) || (c =? 5760) ||
   (8192 <=? c) && (c <=? 8202) ||
   (c =? 8232) || (c =? 8233) || (c =? 8239) || (c =? 8287) ||
   (c =? 12288))%N.

Fixpoint lstrip (s : str) : str :=
  match s with
  | [] => []
  | c :: s' => if isspace c then lstrip s' else s
  end.

Definition rstrip (s : str) : str := rev (lstrip (rev s)).

(** [s.strip()] *)
Definition strip (s : str) : str := rstrip (lstrip s).

(** Truth value of a [str]: only the empty string is falsy. *)
Definition truthy (s : str) : bool :=
  match s with [] => false | _ :: _ => true end.

(** Truth value of a value that is a [str] or [None]. *)
Definition truthy_opt (o : option str) : bool :=
  match o with None => false | Some s => truthy s end.

(** Exceptions: the class decides whether [except Exception] catches it,
    the message is what [str(e)] prints. *)
Inductive exn_class : Type :=
| NoSuchElementException
| TimeoutException
| WebDriverException
| OtherException
| KeyboardInterrupt
| SystemExit.

Record exn : Type := mk_exn { exn_cls : exn_class; exn_msg : str }.

(** [isinstance(e, Exception)]: [KeyboardInterrupt] and [SystemExit] derive
    from [BaseException] only. *)
Definition is_Exception (e : exn) : bool :=
  match exn_cls e with
  | KeyboardInterrupt | SystemExit => false
  | _ => true
  end.

Inductive result (A : Type) : Type :=
| Return (a : A)
| Raise (e : exn).
Arguments Return {A} a.
Arguments Raise {A} e.

(** [dict.get(key, default)] on a mapping that keeps its first binding of
    a key (the behaviour of werkzeug's [MultiDict.get]). *)
Fixpoint dict_get (d : list (str * str)) (key : str) (default : str) : str :=
  match d with
  | [] => default
  | (k, v) :: d' => if eqb k key then v else dict_get d' key default
  end.

(** [enumerate(l)] *)
Definition enumerate (A : Type) (l : list A) : list (nat * A) :=
  combine (seq 0 (List.length l)) l.

End Py.
Import Py.

(* ================================================================= *)
(** ** The rendered page, as Selenium shows it *)

Module Selenium.

(** A node of the rendered document: tag name, class list, attributes,
    the visible text that [WebElement.text] reports, and the child
    elements in document order. *)
Inductive element : Type :=
| Node (tag : str) (classes : list str) (attrs : list (str * str))
       (text : str) (children : list element).

Definition tag (e : element) : str := let 'Node t _ _ _ _ := e in t.
Definition classes (e : element) : list str := let 'Node _ c _ _ _ := e in c.
Definition attrs (e : element) : list (str * str) := let 'Node _ _ a _ _ := e in a.
Definition text (e : element) : str := let 'Node _ _ _ x _ := e in x.
Definition children (e : element) : list element := let 'Node _ _ _ _ c := e in c.

(** The element and its descendants, in document order. *)
Fixpoint subtree (e : element) : list element :=
  match e with
  | Node _ _ _ _ cs =>
      e :: (fix forest (l : list element) : list element :=
              match l with
              | [] => []
              | c :: l' => subtree c ++ forest l'
              end) cs
  end.

Definition subtrees (l : list element) : list element := flat_map subtree l.

(** The two locator strategies the scraper uses. *)
Inductive By : Type := CLASS_NAME | TAG_NAME.

Definition matches (by_ : By) (value : str) (e : element) : bool :=
  match by_ with
  | CLASS_NAME => existsb (Py.eqb value) (classes e)
  | TAG_NAME => Py.eqb value (tag e)
  end.

(** A loaded document is the list of its top-level elements. *)
Definition document : Type := list element.

(** [driver.find_elements(by, value)]: every match, in document order. *)
Definition find_elements (d : document) (by_ : By) (value : str) : list element :=
  filter (matches by_ value) (subtrees d).

Definition no_such_element : exn :=
  mk_exn NoSuchElementException (lit "Message: no such element").

Definition timeout : exn :=
  mk_exn TimeoutException (lit "Message: ").

(** [element.find_element(by, value)]: the first match among the
    descendants, [NoSuchElementException] when there is none. *)
Definition find_element (e : element) (by_ : By) (value : str) : result element :=
  match filter (matches by_ value) (subtrees (children e)) with
  | [] => Raise no_such_element
  | x :: _ => Return x
  end.

Fixpoint assoc (l : list (str * str)) (name : str) : option str :=
  match l with
  | [] => None
  | (k, v) :: l' => if Py.eqb k name then Some v else assoc l' name
  end.

Definition url_valued (name : str) : bool :=
  Py.eqb name (lit "href") || Py.eqb name (lit "src").

(** What the browser session answers.  [chrome_start] is the outcome of
    [webdriver.Chrome(...)] ([None]: a session is created); [navigate] is
    the outcome of [driver.get(url)]; [resolve_url] turns the URL written
    in an [href] or [src] attribute into the absolute URL. *)
Inductive load : Type :=
| Loaded (d : document)
| LoadRaises (e : exn).

Record browser : Type := {
  chrome_start : option exn;
  navigate : str -> load;
  resolve_url : str -> str
}.

(** [element.get_attribute(name)]: [None] when the attribute is absent;
    URL-valued attributes come back resolved. *)
Definition get_attribute (w : browser) (e : element) (name : str) : option str :=
  match assoc (attrs e) name with
  | None => None
  | Some v => Some (if url_valued name then resolve_url w v else v)
  end.

(** What an observer of the process sees. *)
Inductive event : Type :=
| Stdout (line : str)
| ChromeStart
| DriverGet (url : str)
| DriverQuit.

End Selenium.
Import Selenium.

(* ================================================================= *)
(** ** Statements of a Python function body

    A body runs against the event log and the local variables [V] that it
    assigns more than once; it ends with a value or a raised exception. *)

Definition M (V A : Type) : Type :=
  list event -> V -> list event * V * result A.

Definition ret {V A} (a : A) : M V A := fun log v => (log, v, Return a).

Definition raise {V A} (e : exn) : M V A := fun log v => (log, v, Raise e).

Definition bind {V A B} (m : M V A) (k : A -> M V B) : M V B :=
  fun log v =>
    match m log v with
    | (log', v', Return a) => k a log' v'
    | (log', v', Raise e) => (log', v', Raise e)
    end.

Declare Scope py_scope.
Delimit Scope py_scope with py.
Notation "x <- m ;; k" := (bind m (fun x => k))
  (at level 61, m at next level, right associativity) : py_scope.
Notation "m ;; k" := (bind m (fun _ => k))
  (at level 61, right associativity) : py_scope.
Open Scope py_scope.

Definition lift {V A} (r : result A) : M V A := fun log v => (log, v, r).

Definition emit {V} (ev : event) : M V unit :=
  fun log v => (log ++ [ev], v, Return tt).

Definition print {V} (line : str) : M V unit := emit (Stdout line).

Definition load_var {V} : M V V := fun log v => (log, v, Return v).

Definition store_var {V} (v : V) : M V unit := fun log _ => (log, v, Return tt).

(** [try: m  except Exception as e: h e] *)
Definition try_except {V A} (m : M V A) (h : exn -> M V A) : M V A :=
  fun log v =>
    match m log v with
    | (log', v', Raise e) =>
        if is_Exception e then h e log' v' else (log', v', Raise e)
    | r => r
    end.

(** [try: m  finally: f] *)
Definition try_finally {V A} (m : M V A) (f : M V unit) : M V A :=
  fun log v =>
    match m log v with
    | (log', v', r) =>
        match f log' v' with
        | (log2, v2, Return _) => (log2, v2, r)
        | (log2, v2, Raise e) => (log2, v2, Raise e)
        end
    end.

(** [for x in l: body x] *)
Fixpoint for_each {V A} (l : list A) (body : A -> M V unit) : M V unit :=
  match l with
  | [] => ret tt
  | x :: l' => body x ;; for_each l' body
  end.

(** A function: its body run in a fresh frame of local variables. *)
Definition proc (A : Type) : Type := list event -> list event * result A.

Definition frame {V A} (init : V) (body : M V A) : proc A :=
  fun log => let '(log', _, r) := body log init in (log', r).

Definition call {V A} (p : proc A) : M V A :=
  fun log v => let '(log', r) := p log in (log', v, r).

(* ================================================================= *)
(** ** [src/plenzo_nogui.py] *)

Record deal : Type := {
  rank : nat;
  title : str;
  link : option str;
  imageUrl : option str
}.

Section Scraper.

Variable w : browser.

(** [webdriver.Chrome(service=service, options=chrome_options)] *)
Definition webdriver_Chrome {V} : M V unit :=
  match chrome_start w with
  | None => emit ChromeStart
  | Some e => raise e
  end.

(** [driver.get(url)]; the loaded document is handed to the later
    look-ups. *)
Definition driver_get {V} (url : str) : M V document :=
  emit (DriverGet url) ;;
  match navigate w url with
  | Loaded d => ret d
  | LoadRaises e => raise e
  end.

(** [WebDriverWait(driver, 0).until(EC.presence_of_element_located(...))]:
    the element is looked up, and with a timeout of 0 its absence raises
    [TimeoutException]. *)
Definition wait_until_presence {V} (d : document) (by_ : By) (value : str)
  : M V unit :=
  match find_elements d by_ value with
  | [] => raise timeout
  | _ :: _ => ret tt
  end.

Definition driver_quit {V} : M V unit := emit DriverQuit.

(** The body of the inner [try] of the loop, lines 53-81. *)
Definition extract_row (index : nat) (row : element) : M (list deal) unit :=
  img_container <- lift (find_element row CLASS_NAME (lit "dealImg")) ;;
  img_element <- lift (find_element img_container TAG_NAME (lit "img")) ;;
  let image_url := get_attribute w img_element (lit "data-original") in
  let image_url :=
    if negb (truthy_opt image_url)
    then get_attribute w img_element (lit "src")
    else image_url in
  wrapper <- lift (find_element row CLASS_NAME (lit "dealWrapper")) ;;
  link_element <- lift (find_element wrapper TAG_NAME (lit "a")) ;;
  let title := strip (text link_element) in
  let href := get_attribute w link_element (lit "href") in
  let deal_obj := {| rank := index + 1;
                     title := title;
                     link := href;
                     imageUrl := image_url |} in
  results <- load_var ;;
  store_var (results ++ [deal_obj]).

Definition base_url (search_term : str) : str :=
  lit "https://slickdeals.net/newsearch.php?forumchoice%5B%5D=9&q="
    ++ search_term ++ lit "&showposts=0".

Definition newline : str := [10%N].

Definition plenzo_search (search_term : str) : proc (list deal) :=
  frame []
    (print (newline ++ lit "--- Welcome to Plenzo ---") ;;
     print (lit "Finding the best Black Friday Deal for: '" ++ search_term
              ++ lit "'..." ++ newline) ;;
     webdriver_Chrome ;;
     store_var [] ;;
     try_finally
       (try_except
          (d <- driver_get (base_url search_term) ;;
           wait_until_presence d CLASS_NAME (lit "resultRow") ;;
           let deal_rows := firstn 3 (find_elements d CLASS_NAME (lit "resultRow")) in
           for_each (enumerate deal_rows)
             (fun '(index, row) =>
                try_except (extract_row index row) (fun _ => ret tt)))
          (fun e =>
             print (lit "Error connecting to Plenzo data source: " ++ exn_msg e)))
       driver_quit ;;
     load_var).

End Scraper.

(* ================================================================= *)
(** ** [src/app.py] *)

Module App.

(** The payload handed to [jsonify]. *)
Inductive json : Type :=
| JNull
| JInt (n : nat)
| JString (s : str)
| JArray (l : list json)
| JObject (l : list (string * json)).

Record response : Type := { status : nat; body : json }.

Definition json_of_opt (o : option str) : json :=
  match o with None => JNull | Some s => JString s end.

Definition json_of_deal (d : deal) : json :=
  JObject [("rank", JInt (rank d));
           ("title", JString (title d));
           ("link", json_of_opt (link d));
           ("imageUrl", json_of_opt (imageUrl d))]%string.

(** [jsonify(payload)] alone answers with status 200; [jsonify(payload), n]
    answers with status [n]. *)
Definition jsonify (payload : json) (code : nat) : response :=
  {| status := code; body := payload |}.

Section Route.

Variable w : browser.

(** [request.args] is the mapping of the query-string parameters. *)
Definition api_search (args : list (str * str)) : proc response :=
  frame tt
    (let query := strip (dict_get args (lit "q") (lit "")) in
     if negb (truthy query) then
       ret (jsonify (JObject [("error", JString (lit "Missing 'q' query parameter"))]%string) 400)
     else
       try_except
         (deals <- call (plenzo_search w query) ;;
          ret (jsonify (JObject [("query", JString query);
                                 ("results", JArray (map json_of_deal deals))]%string) 200))
         (fun e =>
            print (lit "Error in plenzo_search: " ++ exn_msg e) ;;
            ret (jsonify (JObject [("error", JString (lit "Search failed on the server."))]%string) 500))).

End Route.

End App.

(* ================================================================= *)
(** ** [src/__main__.py]: [fetchWithBackoff] *)

Module Frontend.

(** A [Response]: its status code and its body. *)
Record response : Type := { status : Z; body : str }.

(** How a promise settles. *)
Inductive settled : Type :=
| Fulfilled (r : response)
| Rejected (error : str).

Inductive cause : Type := RateLimit | NetworkError.

(** What an observer sees: a call of [fetch], a [console.warn] with the
    seconds and the retries left that it prints, a timer of [ms]
    milliseconds that the function awaits. *)
Inductive event : Type :=
| Fetch
| Warn (c : cause) (seconds : Q) (retries_left : nat)
| SetTimeout (ms : Q).

(** The number of calls of [fetch] made so far and the events so far. *)
Record state : Type := { calls : nat; trace : list event }.

Definition initial : state := {| calls := 0; trace := [] |}.

Definition log (ev : event) (s : state) : state :=
  {| calls := calls s; trace := trace s ++ [ev] |}.

Definition fetched (s : state) : state :=
  {| calls := S (calls s); trace := trace s ++ [Fetch] |}.

(** [Math.pow(2, 3 - retries) * 1000], as the rational number it denotes:
    the double the source computes is this number for [retries] up to 1077
    and underflows to 0 beyond. *)
Definition delay_ms (retries : nat) : Q :=
  Qred (Qpower 2 (3 - Z.of_nat retries) * 1000).

Definition seconds (ms : Q) : Q := Qred (ms / 1000).

Section Fetch.

(** [fetch n] is how the [n]-th call of [fetch(url, options)] settles; the
    url and the options are the same at every attempt. *)
Variable fetch : nat -> settled.

(** [retries] counts down over the natural numbers.  The recursive call is
    returned without [await], so a rejection of the inner call is not seen
    by the [catch] of the outer one. *)
Fixpoint fetchWithBackoff (retries : nat) (s : state) : state * settled :=
  let s1 := fetched s in
  match fetch (calls s) with
  | Fulfilled response =>
      match Z.eqb (status response) 429, retries with
      | true, S retries_minus_1 =>
          let delay := delay_ms retries in
          let s2 := log (Warn RateLimit (seconds delay) retries_minus_1) s1 in
          let s3 := log (SetTimeout delay) s2 in
          fetchWithBackoff retries_minus_1 s3
      | _, _ => (s1, Fulfilled response)
      end
  | Rejected error =>
      match retries with
      | S retries_minus_1 =>
          let delay := delay_ms retries in
          let s2 := log (Warn NetworkError (seconds delay) retries_minus_1) s1 in
          let s3 := log (SetTimeout delay) s2 in
          fetchWithBackoff retries_minus_1 s3
      | O => (s1, Rejected error)
      end
  end.

(** The default value of the parameter [retries]. *)
Definition default_retries : nat := 3.

End Fetch.

(** An attempt after which the function retries if it may: a response with
    status 429, or a rejected [fetch]. *)
Definition retryable (o : settled) : bool :=
  match o with
  | Fulfilled r => Z.eqb (status r) 429
  | Rejected _ => true
  end.

(** How many of the calls [n], [n + 1], ... of [fetch] are retryable in a
    row, counting at most [budget] of them. *)
Fixpoint leading_failures (fetch : nat -> settled) (n budget : nat) : nat :=
  match budget with
  | O => 0
  | S budget' =>
      if retryable (fetch n)
      then S (leading_failures fetch (S n) budget')
      else 0
  end.

(** The calls of [fetch] and the timers of a trace, without the warnings. *)
Definition schedule (t : list event) : list event :=
  filter (fun ev => match ev with Warn _ _ _ => false | _ => true end) t.

(** A network on which the first [k] calls are answered with [status] and
    the later ones with 200. *)
Definition answers (k : nat) (status : Z) (n : nat) : settled :=
  if n <? k
  then Fulfilled {| status := status; body := lit "busy" |}
  else Fulfilled {| status := 200; body := lit "{}" |}.

(** A network that is down. *)
Definition offline (n : nat) : settled := Rejected (lit "Failed to fetch").

End Frontend.

(* ================================================================= *)
(** ** Notions the properties are stated with *)

(** The deal that the body of the inner [try] appends for a row, [None]
    when the body raises: [extract_row] run on an empty [results]. *)
Definition deal_of_row (w : browser) (index : nat) (row : element) : option deal :=
  match extract_row w index row [] [] with
  | (_, d :: _, Return _) => Some d
  | _ => None
  end.

(** The deals of a run of the loop over indexed rows. *)
Definition deals_of (w : browser) (irows : list (nat * element)) : list deal :=
  flat_map (fun '(index, row) =>
              match deal_of_row w index row with
              | Some d => [d]
              | None => []
              end) irows.

(** The rows the loop of [plenzo_search] runs over. *)
Definition deal_rows (d : document) : list element :=
  firstn 3 (find_elements d CLASS_NAME (lit "resultRow")).

(** One of the four look-ups inside a row finds nothing. *)
Inductive lookup_fails (row : element) : Prop :=
| no_dealImg : forall e,
    find_element row CLASS_NAME (lit "dealImg") = Raise e ->
    lookup_fails row
| no_img : forall c e,
    find_element row CLASS_NAME (lit "dealImg") = Return c ->
    find_element c TAG_NAME (lit "img") = Raise e ->
    lookup_fails row
| no_dealWrapper : forall e,
    find_element row CLASS_NAME (lit "dealWrapper") = Raise e ->
    lookup_fails row
| no_anchor : forall wr e,
    find_element row CLASS_NAME (lit "dealWrapper") = Return wr ->
    find_element wr TAG_NAME (lit "a") = Raise e ->
    lookup_fails row.

(** The two lines [plenzo_search] prints before it starts the browser. *)
Definition banner (search_term : str) : list event :=
  [Stdout (newline ++ lit "--- Welcome to Plenzo ---");
   Stdout (lit "Finding the best Black Friday Deal for: '" ++ search_term
            ++ lit "'..." ++ newline)].

Definition whitespace (s : str) : Prop := Forall (fun c => isspace c = true) s.

(** A failure of navigation or of the wait for the first result row. *)
Inductive page_failure (w : browser) (search_term : str) : Prop :=
| navigation_error : forall e,
    navigate w (base_url search_term) = LoadRaises e ->
    is_Exception e = true ->
    page_failure w search_term
| wait_timeout : forall d,
    navigate w (base_url search_term) = Loaded d ->
    find_elements d CLASS_NAME (lit "resultRow") = [] ->
    page_failure w search_term.

(** The query string has no [q], or its [q] is empty or all blanks. *)
Inductive blank_q (args : list (str * str)) : Prop :=
| q_missing :
    assoc args (lit "q") = None ->
    blank_q args
| q_blank : forall v,
    assoc args (lit "q") = Some v ->
    whitespace v ->
    blank_q args.

(* ================================================================= *)
(** ** Sample pages and browsers *)

Definition img (attributes : list (str * str)) : element :=
  Node (lit "img") [] attributes [] [].

Definition anchor (href label : string) : element :=
  Node (lit "a") [] [(lit "href", lit href)] (lit label) [].

Definition div (class : string) (content : list element) : element :=
  Node (lit "div") [lit class] [] [] content.

(** A result row as the scraper expects it. *)
Definition listing (image : list (str * str)) (href label : string) : element :=
  div "resultRow" [div "dealImg" [img image]; div "dealWrapper" [anchor href label]].

(** A result row without its [dealImg] block. *)
Definition listing_without_image (href label : string) : element :=
  div "resultRow" [div "dealWrapper" [anchor href label]].

Definition lazy (url : string) : list (str * str) :=
  [(lit "data-original", lit url); (lit "src", lit "/blank.gif")].

Definition slickdeals (u : str) : str := lit "https://slickdeals.net" ++ u.

(** A browser that starts and shows the same document for every URL. *)
Definition site (d : document) : browser :=
  {| chrome_start := None;
     navigate := fun _ => Loaded d;
     resolve_url := slickdeals |}.

(** A browser whose navigation raises. *)
Definition broken (e : exn) : browser :=
  {| chrome_start := None;
     navigate := fun _ => LoadRaises e;
     resolve_url := slickdeals |}.

(** Five rows, the second and the fourth malformed. *)
Definition page_five : document :=
  [div "results"
     [listing (lazy "/i/1.jpg") "/f/1" " Laptop one ";
      listing_without_image "/f/2" "Laptop two";
      listing (lazy "/i/3.jpg") "/f/3" "Laptop three";
      listing_without_image "/f/4" "Laptop four";
      listing (lazy "/i/5.jpg") "/f/5" "Laptop five"]].

(** Two rows, the first one malformed. *)
Definition page_gap : document :=
  [div "results"
     [listing_without_image "/f/1" "Camera one";
      listing (lazy "/i/2.jpg") "/f/2" "Camera two"]].

(** No result row at all. *)
Definition page_empty : document := [div "results" []].

(** One row whose image carries an empty [data-original]. *)
Definition page_empty_lazy : document :=
  [div "results"
     [listing [(lit "data-original", lit ""); (lit "src", lit "/i/now.jpg")]
        "/f/1" "Camera"]].

Definition connection_refused : exn :=
  mk_exn WebDriverException (lit "Message: unknown error: net::ERR_CONNECTION_REFUSED").

Definition interrupted : exn := mk_exn KeyboardInterrupt (lit "").

(* ================================================================= *)
(** ** The three answers of the route *)

(** The answers [api_search] builds at lines 31, 39 and 35 of [src/app.py]. *)
Definition bad_request : App.response :=
  {| App.status := 400;
     App.body := App.JObject
                   [("error"%string,
                     App.JString (lit "Missing 'q' query parameter"))] |}.

Definition server_error : App.response :=
  {| App.status := 500;
     App.body := App.JObject
                   [("error"%string,
                     App.JString (lit "Search failed on the server."))] |}.

Definition found (query : str) (ds : list deal) : App.response :=
  {| App.status := 200;
     App.body := App.JObject
                   [("query"%string, App.JString query);
                    ("results"%string, App.JArray (map App.json_of_deal ds))] |}.

(* ================================================================= *)
(** ** The waiting of [fetchWithBackoff] *)

(** The timers of a trace, in order, and the milliseconds they add up to. *)
Definition timers (t : list Frontend.event) : list Q :=
  flat_map (fun ev => match ev with Frontend.SetTimeout ms => [ms] | _ => [] end) t.

Definition total_wait (t : list Frontend.event) : Q :=
  fold_right Qplus 0%Q (timers t).

(* ================================================================= *)
(** ** [src/plenzo_nogui.py]: the command line, lines 97-111 *)

Module Cli.

(** What the terminal shows: the prompt of [input], and what the scraper and
    [print] do. *)
Inductive cli_event : Type :=
| Prompt (text : str)
| Ran (ev : event).

(** [sep.join(l)] *)
Fixpoint join (sep : str) (l : list str) : str :=
  match l with
  | [] => []
  | [x] => x
  | x :: l' => x ++ sep ++ join sep l'
  end.

(** The line printed before the results. *)
Definition header : event := Stdout (newline ++ lit "--- Top 3 Plenzo Deals ---").

Section Main.

Variable w : browser.

(** [json.dumps(deals, indent=2)] *)
Variable json_dumps : list deal -> str.

(** Lines 107-111: the search and the printing of its result. *)
Definition report (term : str) : list cli_event * result unit :=
  match plenzo_search w term [] with
  | (evs, Return deals) =>
      (map Ran (evs ++ [header; Stdout (json_dumps deals)]),
       Return tt)
  | (evs, Raise e) => (map Ran evs, Raise e)
  end.

(** The block under [if __name__ == "__main__"]: [argv] is [sys.argv],
    [stdin] is what [input] returns or raises when it is called. *)
Definition main (argv : list str) (stdin : result str) : list cli_event * result unit :=
  let '(asked, chosen) :=
    if 1 <? List.length argv
    then ([], Return (join (lit " ") (skipn 1 argv)))
    else ([Prompt (lit "Enter item to find deals for: ")], stdin) in
  match chosen with
  | Raise e => (asked, Raise e)
  | Return term =>
      let term := if negb (truthy term) then lit "laptop" else term in
      let '(shown, r) := report term in
      (asked ++ shown, r)
  end.

End Main.

End Cli.

(* ================================================================= *)
(** ** [src/__main__.py]: [handleSearch] *)

Module Ui.
Import Frontend.

(** A JavaScript value as [JSON.parse] builds it, or [undefined].  Strings
    are sequences of UTF-16 code units; an object holds each key once.  An
    error is given by its [message]: the string of a [Rejected] promise is
    the message of the error it was rejected with. *)
Inductive value : Type :=
| Undefined
| Null
| Bool (b : bool)
| Number (q : Q)
| String (s : str)
| Array (l : list value)
| Object (fields : list (str * value)).

(** The own property [key] of an object. *)
Fixpoint own (fields : list (str * value)) (key : str) : value :=
  match fields with
  | [] => Undefined
  | (k, v) :: rest => if Py.eqb k key then v else own rest key
  end.

(** [v.key], for a [v] that is neither [null] nor [undefined] and a [key]
    among [candidates], [content], [parts], [text]: none of these is a
    property of arrays, strings, numbers or booleans. *)
Definition member (key : str) (v : value) : value :=
  match v with
  | Object fields => own fields key
  | _ => Undefined
  end.

(** [v[0]], for a [v] that is neither [null] nor [undefined]. *)
Definition first (v : value) : value :=
  match v with
  | Array (x :: _) => x
  | Object fields => own fields (lit "0")
  | String (c :: _) => String [c]
  | _ => Undefined
  end.

(** [v?.p]: [undefined] when [v] is [null] or [undefined]. *)
Definition chain (v : value) (p : value -> value) : value :=
  match v with
  | Undefined | Null => Undefined
  | _ => p v
  end.

(** [result.candidates?.[0]?.content?.parts?.[0]?.text], for a [result]
    that is neither [null] nor [undefined]. *)
Definition jsonText_of (result : value) : value :=
  chain (chain (chain (chain (chain (member (lit "candidates") result)
                                first)
                         (member (lit "content")))
                  (member (lit "parts")))
           first)
    (member (lit "text")).

(** The truth value of a JavaScript value. *)
Definition truthy (v : value) : bool :=
  match v with
  | Undefined | Null => false
  | Bool b => b
  | Number q => negb (Qeq_bool q 0)
  | String s => Py.truthy s
  | Array _ | Object _ => true
  end.

(** What [JSON.parse] answers. *)
Inductive parsed : Type :=
| Parsed (v : value)
| SyntaxError (message : str).

(** [response.ok] *)
Definition ok (r : response) : bool :=
  ((200 <=? status r) && (status r <=? 299))%Z.

(** An integer in a template literal. *)
Definition number_to_string (n : Z) : str :=
  lit (NilZero.string_of_int (Z.to_int n)).

(** The state of the component that [handleSearch] touches, the state of
    the network, and the messages of the errors given to [console.error]. *)
Record ui : Type := {
  deal : value;
  loading : bool;
  error : option str;
  net : state;
  console : list str
}.

Definition setDeal (d : value) (s : ui) : ui :=
  {| deal := d; loading := loading s; error := error s;
     net := net s; console := console s |}.

Definition setLoading (b : bool) (s : ui) : ui :=
  {| deal := deal s; loading := b; error := error s;
     net := net s; console := console s |}.

Definition setError (e : option str) (s : ui) : ui :=
  {| deal := deal s; loading := loading s; error := e;
     net := net s; console := console s |}.

Definition with_net (n : state) (s : ui) : ui :=
  {| deal := deal s; loading := loading s; error := error s;
     net := n; console := console s |}.

Definition console_error (message : str) (s : ui) : ui :=
  {| deal := deal s; loading := loading s; error := error s;
     net := net s; console := console s ++ [message] |}.

(** How a block ends: normally, or by throwing an error with a message. *)
Inductive completion : Type :=
| Normal
| Throw (message : str).

Definition empty_answer : str :=
  lit "Could not parse the deal information from the model response. Response was empty.".

Definition no_connection : str :=
  lit "Failed to connect to the Gemini API. Check your network or try again.".

Section Component.

(** The network, as for [fetchWithBackoff]. *)
Variable fetch : nat -> settled.

(** [JSON.parse], which [response.json()] applies to the body. *)
Variable JSON_parse : value -> parsed.

(** The message of the [TypeError] for reading [candidates] of [null]. *)
Variable cannot_read : value -> str.

(** The [try] block of [handleSearch], lines 65-89. *)
Definition request (s : ui) : ui * completion :=
  let '(n, outcome) := fetchWithBackoff fetch default_retries (net s) in
  let s := with_net n s in
  match outcome with
  | Rejected error => (s, Throw error)
  | Fulfilled response =>
      if negb (ok response) then
        let errorBody := body response in
        (s, Throw (lit "API returned error status "
                     ++ number_to_string (status response) ++ lit ": "
                     ++ firstn 100 errorBody ++ lit "..."))
      else
        match JSON_parse (String (body response)) with
        | SyntaxError message => (s, Throw message)
        | Parsed result =>
            match result with
            | Undefined | Null => (s, Throw (cannot_read result))
            | _ =>
                let jsonText := jsonText_of result in
                if truthy jsonText then
                  match JSON_parse jsonText with
                  | SyntaxError message => (s, Throw message)
                  | Parsed parsedDeal => (setDeal parsedDeal s, Normal)
                  end
                else (setError (Some empty_answer) s, Normal)
            end
        end
  end.

(** [handleSearch], lines 46-103. *)
Definition handleSearch (s : ui) : ui :=
  let s := setLoading true s in
  let s := setError None s in
  let s := setDeal Null s in
  let '(s, c) := request s in
  let s :=
    match c with
    | Normal => s
    | Throw message =>
        let s := console_error message s in
        if Py.truthy message
        then setError (Some (lit "API Error: " ++ message)) s
        else setError (Some no_connection) s
    end in
  setLoading false s.

End Component.

(** The component before the first search. *)
Definition fresh : ui :=
  {| deal := Null; loading := false; error := None;
     net := initial; console := [] |}.

(** A parser for the two bodies of the samples below. *)
Definition sample_parse (v : value) : parsed :=
  match v with
  | String s =>
      if Py.eqb s (lit "{}") then Parsed (Object [])
      else if Py.eqb s (lit "answer") then
        Parsed (Object
                  [(lit "candidates",
                    Array [Object
                             [(lit "content",
                               Object
                                 [(lit "parts",
                                   Array [Object [(lit "text", String (lit "deal"))]])])]])])
      else if Py.eqb s (lit "deal") then
        Parsed (Object [(lit "title", String (lit "Camera"));
                        (lit "price", String (lit "$99"))])
      else SyntaxError (lit "Unexpected token")
  | _ => SyntaxError (lit "Unexpected token")
  end.

Definition sample_cannot_read (v : value) : str :=
  lit "Cannot read properties of null (reading 'candidates')".

(** A network that answers 200 with the given body. *)
Definition serves (text : string) (n : nat) : settled :=
  Fulfilled {| status := 200; body := lit text |}.

End Ui.

(* ================================================================= *)
(** ** Python strings: [strip] *)

Section Strip.

Lemma lstrip_whitespace (s : str) : whitespace s -> lstrip s = [].
Proof.
  induction 1 as [|c s Hc _ IH]; simpl; [reflexivity|].
  now rewrite Hc.
Qed.

Lemma lstrip_split (s : str) :
  exists l, s = l ++ lstrip s /\ whitespace l.
Proof.
  induction s as [|c s [l [E W]]]; simpl.
  - exists []. split; [reflexivity | constructor].
  - destruct (isspace c) eqn:Hc.
    + exists (c :: l). split; [simpl; congruence | now constructor].
    + exists []. split; [reflexivity | constructor].
Qed.

Lemma lstrip_head (s : str) :
  match lstrip s with [] => True | c :: _ => isspace c = false end.
Proof.
  induction s as [|c s IH]; simpl; [exact I|].
  destruct (isspace c) eqn:Hc; [exact IH | exact Hc].
Qed.

Lemma whitespace_rev (s : str) : whitespace s -> whitespace (rev s).
Proof. unfold whitespace. apply Forall_rev. Qed.

Lemma rstrip_split (s : str) :
  exists r, s = rstrip s ++ r /\ whitespace r.
Proof.
  unfold rstrip. destruct (lstrip_split (rev s)) as [l [E W]].
  exists (rev l). split; [|now apply whitespace_rev].
  rewrite <- rev_app_distr, <- E. now rewrite rev_involutive.
Qed.

(** Removing trailing blanks leaves the first character alone unless the
    whole string goes. *)
Lemma rstrip_keeps_head (c : N) (s : str) :
  rstrip (c :: s) = [] \/ exists s', rstrip (c :: s) = c :: s'.
Proof.
  destruct (rstrip_split (c :: s)) as [r [E _]].
  destruct (rstrip (c :: s)) as [|x s'] eqn:R; [now left|right].
  exists s'. simpl in E. congruence.
Qed.

Lemma strip_whitespace (s : str) : whitespace s -> strip s = [].
Proof.
  intros W. unfold strip. now rewrite (lstrip_whitespace W).
Qed.

Lemma strip_split (s : str) :
  exists l r, s = l ++ strip s ++ r /\ whitespace l /\ whitespace r.
Proof.
  destruct (lstrip_split s) as [l [El Wl]].
  destruct (rstrip_split (lstrip s)) as [r [Er Wr]].
  exists l, r. unfold strip. repeat split; trivial. congruence.
Qed.

Lemma strip_first (s : str) :
  match strip s with [] => True | c :: _ => isspace c = false end.
Proof.
  unfold strip. pose proof (lstrip_head s) as H.
  destruct (lstrip s) as [|c s']; [exact I|].
  destruct (rstrip_keeps_head c s') as [E | [s2 E]]; rewrite E; trivial.
Qed.

Lemma strip_last (s : str) :
  match rev (strip s) with [] => True | c :: _ => isspace c = false end.
Proof.
  unfold strip, rstrip. rewrite rev_involutive. apply lstrip_head.
Qed.

End Strip.

(* ================================================================= *)
(** ** The scraper: one row, the loop, the whole function *)

Section ScraperFacts.

Variable w : browser.

Lemma find_element_cases (e : element) (by_ : By) (value : str) :
  find_element e by_ value = Raise no_such_element \/
  exists x, find_element e by_ value = Return x.
Proof.
  unfold find_element.
  destruct (filter (matches by_ value) (subtrees (children e))) as [|x l].
  - now left.
  - right. now exists x.
Qed.

Ltac run_row :=
  unfold deal_of_row, extract_row, bind, lift, load_var, store_var.

(** The inner [try] body either appends one deal or raises
    [NoSuchElementException]; it writes nothing to the log. *)
Lemma extract_row_spec (index : nat) (row : element) (log : list event) (rs : list deal) :
  extract_row w index row log rs =
  match deal_of_row w index row with
  | Some d => (log, rs ++ [d], Return tt)
  | None => (log, rs, Raise no_such_element)
  end.
Proof.
  run_row.
  destruct (find_element_cases row CLASS_NAME (lit "dealImg")) as [E1 | [c E1]];
    rewrite E1; [reflexivity|].
  destruct (find_element_cases c TAG_NAME (lit "img")) as [E2 | [im E2]];
    rewrite E2; [reflexivity|].
  destruct (find_element_cases row CLASS_NAME (lit "dealWrapper")) as [E3 | [wr E3]];
    rewrite E3; [reflexivity|].
  destruct (find_element_cases wr TAG_NAME (lit "a")) as [E4 | [a E4]];
    rewrite E4; reflexivity.
Qed.

Lemma lookup_fails_no_deal (index : nat) (row : element) :
  lookup_fails row -> deal_of_row w index row = None.
Proof.
  intros [e H | c e H1 H2 | e H | wr e H1 H2]; run_row.
  - now rewrite H.
  - now rewrite H1, H2.
  - destruct (find_element row CLASS_NAME (lit "dealImg")) as [c|]; [|reflexivity].
    destruct (find_element c TAG_NAME (lit "img")); [|reflexivity].
    now rewrite H.
  - destruct (find_element row CLASS_NAME (lit "dealImg")) as [c|]; [|reflexivity].
    destruct (find_element c TAG_NAME (lit "img")); [|reflexivity].
    now rewrite H1, H2.
Qed.

Lemma no_deal_lookup_fails (index : nat) (row : element) :
  deal_of_row w index row = None -> lookup_fails row.
Proof.
  run_row.
  destruct (find_element row CLASS_NAME (lit "dealImg")) as [c|e] eqn:E1;
    [|intros _; eapply no_dealImg; eassumption].
  destruct (find_element c TAG_NAME (lit "img")) as [im|e] eqn:E2;
    [|intros _; eapply no_img; eassumption].
  destruct (find_element row CLASS_NAME (lit "dealWrapper")) as [wr|e] eqn:E3;
    [|intros _; eapply no_dealWrapper; eassumption].
  destruct (find_element wr TAG_NAME (lit "a")) as [a|e] eqn:E4;
    [|intros _; eapply no_anchor; eassumption].
  discriminate.
Qed.

(** What a produced deal is made of. *)
Lemma deal_of_row_fields (index : nat) (row : element) (d : deal) :
  deal_of_row w index row = Some d ->
  exists c im wr a,
    find_element row CLASS_NAME (lit "dealImg") = Return c /\
    find_element c TAG_NAME (lit "img") = Return im /\
    find_element row CLASS_NAME (lit "dealWrapper") = Return wr /\
    find_element wr TAG_NAME (lit "a") = Return a /\
    d = {| rank := index + 1;
           title := strip (text a);
           link := get_attribute w a (lit "href");
           imageUrl :=
             if negb (truthy_opt (get_attribute w im (lit "data-original")))
             then get_attribute w im (lit "src")
             else get_attribute w im (lit "data-original") |}.
Proof.
  run_row.
  destruct (find_element row CLASS_NAME (lit "dealImg")) as [c|e] eqn:E1;
    [|discriminate].
  destruct (find_element c TAG_NAME (lit "img")) as [im|e] eqn:E2;
    [|discriminate].
  destruct (find_element row CLASS_NAME (lit "dealWrapper")) as [wr|e] eqn:E3;
    [|discriminate].
  destruct (find_element wr TAG_NAME (lit "a")) as [a|e] eqn:E4;
    [|discriminate].
  intros H. exists c, im, wr, a.
  repeat (split; [first [reflexivity | assumption]|]).
  simpl in H. injection H as <-. reflexivity.
Qed.

Lemma deal_of_row_rank (index : nat) (row : element) (d : deal) :
  deal_of_row w index row = Some d -> rank d = index + 1.
Proof.
  intros H. apply deal_of_row_fields in H.
  destruct H as (c & im & wr & a & _ & _ & _ & _ & ->). reflexivity.
Qed.

(** The loop appends the deals of its rows, in order, and never raises. *)
Lemma loop_spec (irows : list (nat * element)) (log : list event) (rs : list deal) :
  for_each irows
    (fun '(index, row) => try_except (extract_row w index row) (fun _ => ret tt))
    log rs
  = (log, rs ++ deals_of w irows, Return tt).
Proof.
  revert rs. induction irows as [|[index row] irows IH]; intros rs; simpl.
  - unfold ret. now rewrite app_nil_r.
  - unfold bind, try_except at 1. rewrite extract_row_spec.
    unfold deals_of in *. simpl.
    destruct (deal_of_row w index row) as [d|]; simpl.
    + rewrite IH. now rewrite <- app_assoc.
    + unfold ret. now rewrite IH.
Qed.

End ScraperFacts.

Section SearchFacts.

Variable w : browser.
Variable search_term : str.
Variable log0 : list event.

Ltac run_search :=
  unfold plenzo_search, frame, banner, print, webdriver_Chrome, driver_get,
    wait_until_presence, driver_quit, try_finally, try_except, bind, emit,
    store_var, load_var, raise, ret.

Ltac tidy_log := simpl; repeat rewrite <- app_assoc; reflexivity.

(** No session: the exception of [webdriver.Chrome] leaves the function. *)
Lemma plenzo_search_no_session (e : exn) :
  chrome_start w = Some e ->
  plenzo_search w search_term log0 = (log0 ++ banner search_term, Raise e).
Proof.
  intros H. run_search. rewrite H. tidy_log.
Qed.

(** The page shows result rows: the loop runs over the first three. *)
Lemma plenzo_search_rows (d : document) :
  chrome_start w = None ->
  navigate w (base_url search_term) = Loaded d ->
  find_elements d CLASS_NAME (lit "resultRow") <> [] ->
  plenzo_search w search_term log0 =
  (log0 ++ banner search_term ++ [ChromeStart; DriverGet (base_url search_term); DriverQuit],
   Return (deals_of w (enumerate (deal_rows d)))).
Proof.
  intros Hs Hn Hr. run_search. rewrite Hs, Hn.
  destruct (find_elements d CLASS_NAME (lit "resultRow")) as [|r0 rows] eqn:E;
    [congruence|].
  fold (bind (V := list deal) (A := unit) (B := unit)).
  unfold deal_rows. rewrite E.
  change (fun pat : nat * element => _) with
    (fun '(index, row) =>
       try_except (extract_row w index row) (fun _ => ret (V := list deal) tt)).
  rewrite loop_spec. tidy_log.
Qed.

(** The page shows no result row: the wait times out, which is caught. *)
Lemma plenzo_search_no_rows (d : document) :
  chrome_start w = None ->
  navigate w (base_url search_term) = Loaded d ->
  find_elements d CLASS_NAME (lit "resultRow") = [] ->
  plenzo_search w search_term log0 =
  (log0 ++ banner search_term ++
     [ChromeStart; DriverGet (base_url search_term);
      Stdout (lit "Error connecting to Plenzo data source: " ++ exn_msg timeout);
      DriverQuit],
   Return []).
Proof.
  intros Hs Hn Hr. run_search. rewrite Hs, Hn, Hr. tidy_log.
Qed.

(** [driver.get] raises an [Exception]: caught, logged, no results. *)
Lemma plenzo_search_get_caught (e : exn) :
  chrome_start w = None ->
  navigate w (base_url search_term) = LoadRaises e ->
  is_Exception e = true ->
  plenzo_search w search_term log0 =
  (log0 ++ banner search_term ++
     [ChromeStart; DriverGet (base_url search_term);
      Stdout (lit "Error connecting to Plenzo data source: " ++ exn_msg e);
      DriverQuit],
   Return []).
Proof.
  intros Hs Hn He. run_search. rewrite Hs, Hn, He. tidy_log.
Qed.

(** [driver.get] raises outside [Exception]: only the [finally] runs. *)
Lemma plenzo_search_get_uncaught (e : exn) :
  chrome_start w = None ->
  navigate w (base_url search_term) = LoadRaises e ->
  is_Exception e = false ->
  plenzo_search w search_term log0 =
  (log0 ++ banner search_term ++ [ChromeStart; DriverGet (base_url search_term); DriverQuit],
   Raise e).
Proof.
  intros Hs Hn He. run_search. rewrite Hs, Hn, He. tidy_log.
Qed.

(** With a loaded page the function returns the deals of the first three
    result rows, whether or not there are any. *)
Lemma plenzo_search_loaded (d : document) :
  chrome_start w = None ->
  navigate w (base_url search_term) = Loaded d ->
  snd (plenzo_search w search_term log0) =
  Return (deals_of w (enumerate (deal_rows d))).
Proof.
  intros Hs Hn.
  destruct (find_elements d CLASS_NAME (lit "resultRow")) as [|r0 rows] eqn:E.
  - rewrite (plenzo_search_no_rows Hs Hn E). unfold deal_rows. now rewrite E.
  - rewrite (@plenzo_search_rows d Hs Hn); [reflexivity | congruence].
Qed.

End SearchFacts.

(* ================================================================= *)
(** ** Indexed rows *)

Section IndexedRows.

Variable w : browser.

Lemma enumerate_length (A : Type) (l : list A) :
  List.length (enumerate l) = List.length l.
Proof.
  unfold enumerate. rewrite length_combine, length_seq. apply Nat.min_id.
Qed.

Lemma indexed_in (A : Type) (l : list A) (k i : nat) (x : A) :
  In (i, x) (combine (seq k (List.length l)) l) ->
  k <= i /\ nth_error l (i - k) = Some x.
Proof.
  revert k. induction l as [|y l IH]; intros k; simpl; [tauto|].
  intros [E | H].
  - injection E as <- <-. rewrite Nat.sub_diag. split; [lia | reflexivity].
  - apply IH in H as [Hk Hn]. split; [lia|].
    replace (i - k) with (S (i - S k)) by lia. exact Hn.
Qed.

Lemma indexed_app (A : Type) (pre post : list A) (x : A) (k : nat) :
  combine (seq k (List.length (pre ++ x :: post))) (pre ++ x :: post) =
  combine (seq k (List.length pre)) pre ++
  (k + List.length pre, x) ::
  combine (seq (S (k + List.length pre)) (List.length post)) post.
Proof.
  revert k. induction pre as [|y pre IH]; intros k; simpl.
  - now rewrite Nat.add_0_r.
  - rewrite IH. now rewrite Nat.add_succ_r.
Qed.

Lemma deals_of_app (l1 l2 : list (nat * element)) :
  deals_of w (l1 ++ l2) = deals_of w l1 ++ deals_of w l2.
Proof. unfold deals_of. apply flat_map_app. Qed.

Lemma deals_of_in (irows : list (nat * element)) (x : deal) :
  In x (deals_of w irows) ->
  exists index row, In (index, row) irows /\ deal_of_row w index row = Some x.
Proof.
  unfold deals_of. rewrite in_flat_map. intros [[index row] [Hin Hx]].
  exists index, row. split; [exact Hin|].
  destruct (deal_of_row w index row) as [d|]; simpl in Hx; [|tauto].
  destruct Hx as [-> | []]. reflexivity.
Qed.

Lemma deals_of_length (irows : list (nat * element)) :
  List.length (deals_of w irows) <= List.length irows.
Proof.
  induction irows as [|[index row] irows IH]; simpl; [lia|].
  destruct (deal_of_row w index row); simpl; fold (deals_of w irows); lia.
Qed.

(** The rank of a deal of rows numbered from [k] points back at its row. *)
Lemma deals_of_rank (l : list element) (k : nat) (x : deal) :
  In x (deals_of w (combine (seq k (List.length l)) l)) ->
  k < rank x <= k + List.length l /\
  exists row, nth_error l (rank x - 1 - k) = Some row /\
              deal_of_row w (rank x - 1) row = Some x.
Proof.
  intros H. apply deals_of_in in H as (index & row & Hin & Hx).
  pose proof (deal_of_row_rank _ _ _ Hx) as Hr.
  apply indexed_in in Hin as [Hk Hn].
  assert (index - k < List.length l) by (apply nth_error_Some; congruence).
  replace (rank x - 1) with index by lia.
  split; [lia|]. exists row. split; assumption.
Qed.

Lemma deals_of_sorted (l : list element) (k : nat) :
  StronglySorted lt (map rank (deals_of w (combine (seq k (List.length l)) l))).
Proof.
  revert k. induction l as [|row l IH]; intros k; simpl; [constructor|].
  fold (deals_of w (combine (seq (S k) (List.length l)) l)).
  destruct (deal_of_row w k row) as [d|] eqn:E; simpl; [|apply IH].
  constructor; [apply IH|].
  apply Forall_forall. intros r Hr. apply in_map_iff in Hr as [x [<- Hx]].
  apply deals_of_rank in Hx as [Hx _].
  apply deal_of_row_rank in E. lia.
Qed.

(** Without a skipped row the ranks count up from [k + 1]. *)
Lemma deals_of_dense (l : list element) (k : nat) :
  (forall row, In row l -> ~ lookup_fails row) ->
  forall i x,
    nth_error (deals_of w (combine (seq k (List.length l)) l)) i = Some x ->
    rank x = k + i + 1.
Proof.
  revert k. induction l as [|row l IH]; intros k Hok i x; simpl.
  - destruct i; discriminate.
  - fold (deals_of w (combine (seq (S k) (List.length l)) l)).
    destruct (deal_of_row w k row) as [d|] eqn:E.
    + destruct i as [|i]; simpl.
      * intros H. injection H as <-. apply deal_of_row_rank in E. lia.
      * intros H. apply IH in H; [lia|]. intros r Hr. apply Hok. now right.
    + exfalso. apply (Hok row); [now left|].
      eapply no_deal_lookup_fails; eassumption.
Qed.

(** What [plenzo_search] can return. *)
Lemma plenzo_search_returns (search_term : str) (log0 : list event) (ds : list deal) :
  snd (plenzo_search w search_term log0) = Return ds ->
  chrome_start w = None /\
  (ds = [] \/
   exists d, navigate w (base_url search_term) = Loaded d /\
             ds = deals_of w (enumerate (deal_rows d))).
Proof.
  intros H. destruct (chrome_start w) as [e|] eqn:Hs.
  - rewrite (plenzo_search_no_session w search_term log0 Hs) in H. discriminate.
  - split; [reflexivity|].
    destruct (navigate w (base_url search_term)) as [d|e] eqn:Hn.
    + rewrite (plenzo_search_loaded w search_term log0 Hs Hn) in H. right. exists d.
      split; congruence.
    + destruct (is_Exception e) eqn:He.
      * rewrite (plenzo_search_get_caught w search_term log0 Hs Hn He) in H. left.
        simpl in H. congruence.
      * rewrite (plenzo_search_get_uncaught w search_term log0 Hs Hn He) in H. discriminate.
Qed.

Lemma deal_rows_length (d : document) : List.length (deal_rows d) <= 3.
Proof. unfold deal_rows. apply firstn_le_length. Qed.

End IndexedRows.

(* ================================================================= *)
(** ** Properties of [plenzo_search] *)

Section Ranks.

(** C1, as the specification states it, fails: on a page whose first
    result row lacks its image block the only deal returned carries rank 2,
    so the first deal of the output does not have rank 1. *)
Lemma rank_dense_counterexample :
  ~ (forall (w : browser) (search_term : str) (log0 : list event)
            (ds : list deal) (i : nat) (x : deal),
        snd (plenzo_search w search_term log0) = Return ds ->
        nth_error ds i = Some x ->
        rank x = i + 1).
Proof.
  intros H.
  assert (E : snd (plenzo_search (site page_gap) (lit "camera") []) =
              Return [{| rank := 2;
                         title := lit "Camera two";
                         link := Some (lit "https://slickdeals.net/f/2");
                         imageUrl := Some (lit "/i/2.jpg") |}])
    by (vm_compute; reflexivity).
  specialize (H _ _ _ _ 0 _ E eq_refl). simpl in H. discriminate.
Qed.

(** C1 (amended): the rank of a deal is the 1-based position of its result
    row among the first three result rows of the page.  Hence the ranks of
    the output are strictly increasing and lie between 1 and 3, each deal
    is the one extracted from the row its rank points at, and the i-th deal
    has rank i whenever no look-up fails in any of those rows. *)
Theorem rank_is_row_position
  (w : browser) (search_term : str) (log0 : list event) (ds : list deal) :
  snd (plenzo_search w search_term log0) = Return ds ->
  StronglySorted lt (map rank ds) /\
  (forall x, In x ds ->
     1 <= rank x <= 3 /\
     exists d row,
       navigate w (base_url search_term) = Loaded d /\
       nth_error (deal_rows d) (rank x - 1) = Some row /\
       deal_of_row w (rank x - 1) row = Some x) /\
  (forall d,
     navigate w (base_url search_term) = Loaded d ->
     (forall row, In row (deal_rows d) -> ~ lookup_fails row) ->
     forall i x, nth_error ds i = Some x -> rank x = i + 1).
Proof.
  intros H. apply plenzo_search_returns in H as [_ [-> | [d [Hn ->]]]].
  - split; [constructor|]. split; [intros x []|].
    intros d _ _ [|i] x; discriminate.
  - unfold enumerate. split; [apply deals_of_sorted|]. split.
    + intros x Hx. apply deals_of_rank in Hx as [Hr [row [Hrow Hx]]].
      pose proof (deal_rows_length d). split; [lia|].
      exists d, row. rewrite Nat.sub_0_r in Hrow. repeat split; assumption.
    + intros d' Hn' Hok i x Hx.
      assert (d' = d) by congruence. subst d'.
      apply deals_of_dense in Hx; [lia | exact Hok].
Qed.

Lemma rank_is_row_position_witness :
  snd (plenzo_search (site page_five) (lit "laptop") []) =
    Return (deals_of (site page_five) (enumerate (deal_rows page_five))) /\
  map rank (deals_of (site page_five) (enumerate (deal_rows page_five))) = [1; 3] /\
  StronglySorted lt
    (map rank (deals_of (site page_five) (enumerate (deal_rows page_five)))).
Proof.
  split; [vm_compute; reflexivity|]. split; [vm_compute; reflexivity|].
  apply (@rank_is_row_position (site page_five) (lit "laptop") []).
  vm_compute; reflexivity.
Defined.

End Ranks.

(** Five result rows, the second and the fourth malformed: the loop sees the
    first three, and the deals of rows 1 and 3 keep the ranks 1 and 3. *)
Example five_rows_two_malformed :
  snd (plenzo_search (site page_five) (lit "laptop") []) =
  Return [{| rank := 1;
             title := lit "Laptop one";
             link := Some (lit "https://slickdeals.net/f/1");
             imageUrl := Some (lit "/i/1.jpg") |};
          {| rank := 3;
             title := lit "Laptop three";
             link := Some (lit "https://slickdeals.net/f/3");
             imageUrl := Some (lit "/i/3.jpg") |}].
Proof. vm_compute. reflexivity. Qed.

Section Cap.

(** C2: [plenzo_search] never returns more than 3 deals; on a rendered page
    it does return, and every deal it returns comes from one of the first
    three elements of class [resultRow] in document order. *)
Theorem at_most_three_deals
  (w : browser) (search_term : str) (log0 : list event) (d : document) :
  chrome_start w = None ->
  navigate w (base_url search_term) = Loaded d ->
  exists ds,
    snd (plenzo_search w search_term log0) = Return ds /\
    List.length ds <= 3 /\
    forall x, In x ds ->
      exists index row,
        nth_error (firstn 3 (find_elements d CLASS_NAME (lit "resultRow"))) index
          = Some row /\
        deal_of_row w index row = Some x.
Proof.
  intros Hs Hn. exists (deals_of w (enumerate (deal_rows d))).
  split; [apply plenzo_search_loaded; assumption|]. split.
  - pose proof (deals_of_length w (enumerate (deal_rows d))) as H.
    rewrite enumerate_length in H. pose proof (deal_rows_length d). lia.
  - intros x Hx. apply deals_of_in in Hx as (index & row & Hin & Hx).
    apply indexed_in in Hin as [_ Hin]. rewrite Nat.sub_0_r in Hin.
    exists index, row. split; assumption.
Qed.

Lemma at_most_three_deals_witness :
  chrome_start (site page_five) = None /\
  navigate (site page_five) (base_url (lit "laptop")) = Loaded page_five /\
  List.length (find_elements page_five CLASS_NAME (lit "resultRow")) = 5 /\
  exists ds,
    snd (plenzo_search (site page_five) (lit "laptop") []) = Return ds /\
    List.length ds <= 3 /\
    forall x, In x ds ->
      exists index row,
        nth_error (firstn 3 (find_elements page_five CLASS_NAME (lit "resultRow")))
          index = Some row /\
        deal_of_row (site page_five) index row = Some x.
Proof.
  split; [reflexivity|]. split; [reflexivity|]. split; [vm_compute; reflexivity|].
  apply (@at_most_three_deals (site page_five) (lit "laptop") [] page_five);
    reflexivity.
Defined.

End Cap.

Section Skipping.

(** C3: a result row in which a look-up fails (no [dealImg] block, no
    [img] in it, no [dealWrapper] block, no anchor in it) adds nothing to
    the output: the deals returned are those of the rows before it followed
    by those of the rows after it, and none of them carries the rank of the
    failed row. *)
Theorem failed_row_is_dropped
  (w : browser) (search_term : str) (log0 : list event) (d : document)
  (pre post : list element) (row : element) :
  chrome_start w = None ->
  navigate w (base_url search_term) = Loaded d ->
  deal_rows d = pre ++ row :: post ->
  lookup_fails row ->
  exists ds,
    snd (plenzo_search w search_term log0) = Return ds /\
    ds = deals_of w (combine (seq 0 (List.length pre)) pre) ++
         deals_of w (combine (seq (S (List.length pre)) (List.length post)) post) /\
    forall x, In x ds -> rank x <> List.length pre + 1.
Proof.
  intros Hs Hn Hrows Hfail.
  eexists. split; [apply plenzo_search_loaded; eassumption|].
  unfold enumerate. rewrite Hrows, indexed_app, deals_of_app. simpl.
  rewrite (lookup_fails_no_deal w (List.length pre) Hfail). simpl.
  fold (deals_of w (combine (seq (S (List.length pre)) (List.length post)) post)).
  split; [reflexivity|].
  intros x Hx. apply in_app_or in Hx as [Hx | Hx];
    apply deals_of_rank in Hx as [Hx _]; lia.
Qed.

Lemma failed_row_is_dropped_witness :
  lookup_fails (listing_without_image "/f/2" "Laptop two") /\
  exists ds,
    snd (plenzo_search (site page_five) (lit "laptop") []) = Return ds /\
    ds = deals_of (site page_five)
           [(0, listing (lazy "/i/1.jpg") "/f/1" " Laptop one ")] ++
         deals_of (site page_five)
           [(2, listing (lazy "/i/3.jpg") "/f/3" "Laptop three")] /\
    forall x, In x ds -> rank x <> 2.
Proof.
  assert (F : lookup_fails (listing_without_image "/f/2" "Laptop two"))
    by (eapply no_dealImg; vm_compute; reflexivity).
  split; [exact F|].
  apply (@failed_row_is_dropped (site page_five) (lit "laptop") [] page_five
           [listing (lazy "/i/1.jpg") "/f/1" " Laptop one "]
           [listing (lazy "/i/3.jpg") "/f/3" "Laptop three"]
           (listing_without_image "/f/2" "Laptop two"));
    [reflexivity | reflexivity | vm_compute; reflexivity | exact F].
Defined.

End Skipping.

Section Fields.

(** C8, as the specification states it, fails: an image whose
    [data-original] is present but empty yields the deal's [imageUrl] from
    [src], not from [data-original]. *)
Lemma lazy_attribute_counterexample :
  ~ (forall (w : browser) (index : nat) (row c im : element) (x : deal) (v : str),
        deal_of_row w index row = Some x ->
        find_element row CLASS_NAME (lit "dealImg") = Return c ->
        find_element c TAG_NAME (lit "img") = Return im ->
        get_attribute w im (lit "data-original") = Some v ->
        imageUrl x = Some v).
Proof.
  intros H.
  pose (im := img [(lit "data-original", lit ""); (lit "src", lit "/i/now.jpg")]).
  pose (row := listing [(lit "data-original", lit ""); (lit "src", lit "/i/now.jpg")]
                 "/f/1" "Camera").
  specialize (H (site page_empty_lazy) 0 row (div "dealImg" [im]) im
                {| rank := 1;
                   title := lit "Camera";
                   link := Some (lit "https://slickdeals.net/f/1");
                   imageUrl := Some (lit "https://slickdeals.net/i/now.jpg") |}
                (lit "")).
  vm_compute in H.
  specialize (H eq_refl eq_refl eq_refl eq_refl). discriminate.
Qed.

(** C8 (amended): for every deal returned, with [im] the first [img] of
    the first [dealImg] block of its row and [a] the first anchor of the
    first [dealWrapper] block: [imageUrl] is the value of [data-original]
    when that attribute is present and not empty, and the value of [src]
    (or nothing, when [src] is absent too) when [data-original] is absent
    or empty; [title] is the visible text of [a] without the blanks around
    it; [link] is the resolved [href] of [a]. *)
Theorem deal_fields
  (w : browser) (search_term : str) (log0 : list event) (ds : list deal) (x : deal) :
  snd (plenzo_search w search_term log0) = Return ds ->
  In x ds ->
  exists d row c im wr a,
    navigate w (base_url search_term) = Loaded d /\
    nth_error (deal_rows d) (rank x - 1) = Some row /\
    find_element row CLASS_NAME (lit "dealImg") = Return c /\
    find_element c TAG_NAME (lit "img") = Return im /\
    find_element row CLASS_NAME (lit "dealWrapper") = Return wr /\
    find_element wr TAG_NAME (lit "a") = Return a /\
    imageUrl x =
      match get_attribute w im (lit "data-original") with
      | Some (c0 :: v) => Some (c0 :: v)
      | Some [] | None => get_attribute w im (lit "src")
      end /\
    title x = strip (text a) /\
    (exists l r, text a = l ++ title x ++ r /\ whitespace l /\ whitespace r) /\
    match title x with [] => True | c0 :: _ => isspace c0 = false end /\
    match rev (title x) with [] => True | c0 :: _ => isspace c0 = false end /\
    link x = option_map (resolve_url w) (assoc (attrs a) (lit "href")).
Proof.
  intros H Hx. apply plenzo_search_returns in H as [_ [-> | [d [Hn ->]]]];
    [destruct Hx|].
  unfold enumerate in Hx. apply deals_of_rank in Hx as [_ [row [Hrow Hd]]].
  rewrite Nat.sub_0_r in Hrow.
  apply deal_of_row_fields in Hd as (c & im & wr & a & E1 & E2 & E3 & E4 & Ex).
  exists d, row, c, im, wr, a.
  repeat (split; [assumption|]).
  pose proof (f_equal imageUrl Ex) as Ei.
  pose proof (f_equal title Ex) as Et.
  pose proof (f_equal link Ex) as El.
  cbn [imageUrl title link] in Ei, Et, El. rewrite Ei, Et, El.
  split; [|split; [reflexivity|split; [apply strip_split|
           split; [apply strip_first|split; [apply strip_last|]]]]].
  - destruct (get_attribute w im (lit "data-original")) as [[|c0 v]|]; reflexivity.
  - unfold get_attribute.
    destruct (assoc (attrs a) (lit "href")); reflexivity.
Qed.

Lemma deal_fields_witness :
  let x := {| rank := 1;
              title := lit "Laptop one";
              link := Some (lit "https://slickdeals.net/f/1");
              imageUrl := Some (lit "/i/1.jpg") |} in
  In x (deals_of (site page_five) (enumerate (deal_rows page_five))) /\
  exists d row c im wr a,
    navigate (site page_five) (base_url (lit "laptop")) = Loaded d /\
    nth_error (deal_rows d) (rank x - 1) = Some row /\
    find_element row CLASS_NAME (lit "dealImg") = Return c /\
    find_element c TAG_NAME (lit "img") = Return im /\
    find_element row CLASS_NAME (lit "dealWrapper") = Return wr /\
    find_element wr TAG_NAME (lit "a") = Return a /\
    imageUrl x =
      match get_attribute (site page_five) im (lit "data-original") with
      | Some (c0 :: v) => Some (c0 :: v)
      | Some [] | None => get_attribute (site page_five) im (lit "src")
      end /\
    title x = strip (text a) /\
    (exists l r, text a = l ++ title x ++ r /\ whitespace l /\ whitespace r) /\
    match title x with [] => True | c0 :: _ => isspace c0 = false end /\
    match rev (title x) with [] => True | c0 :: _ => isspace c0 = false end /\
    link x = option_map (resolve_url (site page_five)) (assoc (attrs a) (lit "href")).
Proof.
  intros x.
  assert (I : In x (deals_of (site page_five) (enumerate (deal_rows page_five))))
    by (vm_compute; left; reflexivity).
  split; [exact I|].
  apply (@deal_fields (site page_five) (lit "laptop") []
           (deals_of (site page_five) (enumerate (deal_rows page_five))) x);
    [vm_compute; reflexivity | exact I].
Defined.

End Fields.

(* ================================================================= *)
(** ** The route and the session *)

Section RouteFacts.

Variable w : browser.

Lemma dict_get_assoc (args : list (str * str)) (key default : str) :
  dict_get args key default =
  match assoc args key with Some v => v | None => default end.
Proof.
  induction args as [|[k v] args IH]; simpl; [reflexivity|].
  destruct (Py.eqb k key); [reflexivity | exact IH].
Qed.

Lemma blank_q_strip (args : list (str * str)) :
  blank_q args -> strip (dict_get args (lit "q") (lit "")) = [].
Proof.
  intros [H | v H W]; rewrite dict_get_assoc, H.
  - reflexivity.
  - now apply strip_whitespace.
Qed.

(** Every run of [plenzo_search] starts by printing its banner. *)
Lemma plenzo_search_prints (search_term : str) (log0 : list event) :
  exists rest,
    fst (plenzo_search w search_term log0) = log0 ++ banner search_term ++ rest.
Proof.
  destruct (chrome_start w) as [e|] eqn:Hs.
  - rewrite (plenzo_search_no_session w search_term log0 Hs).
    exists []. now rewrite app_nil_r.
  - destruct (navigate w (base_url search_term)) as [d|e] eqn:Hn.
    + destruct (find_elements d CLASS_NAME (lit "resultRow")) as [|r0 rows] eqn:E.
      * rewrite (plenzo_search_no_rows w search_term log0 Hs Hn E).
        eexists. reflexivity.
      * rewrite (@plenzo_search_rows w search_term log0 d Hs Hn);
          [eexists; reflexivity | congruence].
    + destruct (is_Exception e) eqn:He.
      * rewrite (plenzo_search_get_caught w search_term log0 Hs Hn He).
        eexists. reflexivity.
      * rewrite (plenzo_search_get_uncaught w search_term log0 Hs Hn He).
        eexists. reflexivity.
Qed.

Lemma plenzo_search_leaves_trace (search_term : str) (log0 : list event) :
  fst (plenzo_search w search_term log0) <> log0.
Proof.
  destruct (plenzo_search_prints search_term log0) as [rest ->].
  intros H. apply (f_equal (@List.length event)) in H.
  rewrite length_app in H. simpl in H. lia.
Qed.

(** The route, once the query is not blank and the scraper returns. *)
Lemma api_search_ok (args : list (str * str)) (log0 : list event) (ds : list deal) :
  truthy (strip (dict_get args (lit "q") (lit ""))) = true ->
  snd (plenzo_search w (strip (dict_get args (lit "q") (lit ""))) log0) = Return ds ->
  snd (App.api_search w args log0) =
  Return {| App.status := 200;
            App.body :=
              App.JObject
                [("query"%string,
                  App.JString (strip (dict_get args (lit "q") (lit ""))));
                 ("results"%string, App.JArray (map App.json_of_deal ds))] |}.
Proof.
  intros Hq Hds. unfold App.api_search, frame. rewrite Hq.
  unfold try_except, bind, call, ret. change (negb true) with false.
  cbv beta iota.
  destruct (plenzo_search w (strip (dict_get args (lit "q") (lit ""))) log0)
    as [log1 r].
  simpl in Hds. subst r. reflexivity.
Qed.

End RouteFacts.

Section Validation.

(** C6: when [q] is missing, empty or made of whitespace only, the route
    answers 400 with the body [{"error": "Missing 'q' query parameter"}]
    and leaves the event log as it found it; a call of [plenzo_search]
    always adds to the log, so the scraper has not been called. *)
Theorem blank_query_is_rejected
  (w : browser) (args : list (str * str)) (log0 : list event) :
  blank_q args ->
  App.api_search w args log0 =
    (log0,
     Return {| App.status := 400;
               App.body :=
                 App.JObject
                   [("error"%string,
                     App.JString (lit "Missing 'q' query parameter"))] |}) /\
  forall search_term,
    fst (plenzo_search w search_term log0) <> fst (App.api_search w args log0).
Proof.
  intros Hq.
  assert (E : App.api_search w args log0 =
    (log0,
     Return {| App.status := 400;
               App.body :=
                 App.JObject
                   [("error"%string,
                     App.JString (lit "Missing 'q' query parameter"))] |})).
  { unfold App.api_search, frame. rewrite (blank_q_strip Hq). reflexivity. }
  split; [exact E|].
  intros search_term. rewrite E. apply plenzo_search_leaves_trace.
Qed.

Lemma blank_query_is_rejected_witness :
  blank_q [(lit "page", lit "2"); (lit "q", [32; 9; 160; 8195]%N)] /\
  blank_q [(lit "page", lit "2")] /\
  App.api_search (site page_five) [(lit "page", lit "2"); (lit "q", [32; 9; 160; 8195]%N)] []
  = ([],
     Return {| App.status := 400;
               App.body :=
                 App.JObject
                   [("error"%string,
                     App.JString (lit "Missing 'q' query parameter"))] |}).
Proof.
  assert (B : blank_q [(lit "page", lit "2"); (lit "q", [32; 9; 160; 8195]%N)]).
  { eapply q_blank; [vm_compute; reflexivity|].
    repeat constructor. }
  split; [exact B|]. split; [apply q_missing; vm_compute; reflexivity|].
  apply (@blank_query_is_rejected (site page_five) _ [] B).
Defined.

End Validation.

Section PageFailures.

(** C7: when navigation raises an [Exception], or the wait finds no result
    row and times out, [plenzo_search] returns the empty list instead of
    raising; and the route, called with a query that strips to such a
    search term, answers 200 with that query and an empty [results]. *)
Theorem page_failure_gives_no_results
  (w : browser) (search_term : str) (log0 : list event) :
  chrome_start w = None ->
  page_failure w search_term ->
  snd (plenzo_search w search_term log0) = Return [] /\
  forall (args : list (str * str)) (log1 : list event),
    strip (dict_get args (lit "q") (lit "")) = search_term ->
    truthy search_term = true ->
    snd (App.api_search w args log1) =
    Return {| App.status := 200;
              App.body :=
                App.JObject
                  [("query"%string, App.JString search_term);
                   ("results"%string, App.JArray [])] |}.
Proof.
  intros Hs Hf.
  assert (E : forall log, snd (plenzo_search w search_term log) = Return []).
  { intros log. destruct Hf as [e Hn He | d Hn Hr].
    - now rewrite (plenzo_search_get_caught w search_term log Hs Hn He).
    - now rewrite (plenzo_search_no_rows w search_term log Hs Hn Hr). }
  split; [apply E|].
  intros args log1 Hq Ht. subst search_term.
  rewrite (@api_search_ok w args log1 [] Ht (E log1)). reflexivity.
Qed.

Lemma page_failure_gives_no_results_witness :
  page_failure (site page_empty) (lit "laptop") /\
  page_failure (broken connection_refused) (lit "laptop") /\
  snd (plenzo_search (broken connection_refused) (lit "laptop") []) = Return [] /\
  snd (App.api_search (site page_empty) [(lit "q", lit "  laptop ")] []) =
    Return {| App.status := 200;
              App.body :=
                App.JObject
                  [("query"%string, App.JString (lit "laptop"));
                   ("results"%string, App.JArray [])] |}.
Proof.
  assert (F1 : page_failure (site page_empty) (lit "laptop"))
    by (eapply wait_timeout; vm_compute; reflexivity).
  assert (F2 : page_failure (broken connection_refused) (lit "laptop"))
    by (eapply navigation_error; vm_compute; reflexivity).
  split; [exact F1|]. split; [exact F2|]. split.
  - apply (@page_failure_gives_no_results (broken connection_refused)
             (lit "laptop") [] eq_refl F2).
  - apply (@page_failure_gives_no_results (site page_empty)
             (lit "laptop") [] eq_refl F1);
      vm_compute; reflexivity.
Defined.

End PageFailures.

Section Teardown.

(** C9: once [webdriver.Chrome] has created the session, every run of
    [plenzo_search] -- whatever it returns or raises -- logs [DriverQuit] as its
    last event, after [ChromeStart], and quits exactly once. *)
Theorem session_is_always_quit
  (w : browser) (search_term : str) (log0 : list event) :
  chrome_start w = None ->
  exists mid,
    fst (plenzo_search w search_term log0) =
      log0 ++ banner search_term ++ [ChromeStart] ++ mid ++ [DriverQuit] /\
    ~ In DriverQuit mid /\ ~ In ChromeStart mid.
Proof.
  intros Hs.
  assert (N1 : forall u, ~ In DriverQuit [DriverGet u] /\ ~ In ChromeStart [DriverGet u]).
  { intros u. split; intros [H | []]; discriminate. }
  assert (N2 : forall u l, ~ In DriverQuit [DriverGet u; Stdout l] /\
                           ~ In ChromeStart [DriverGet u; Stdout l]).
  { intros u l. split; intros [H | [H | []]]; discriminate. }
  destruct (navigate w (base_url search_term)) as [d|e] eqn:Hn.
  - destruct (find_elements d CLASS_NAME (lit "resultRow")) as [|r0 rows] eqn:E.
    + rewrite (plenzo_search_no_rows w search_term log0 Hs Hn E).
      eexists [DriverGet _; Stdout _]. split; [reflexivity | apply N2].
    + rewrite (@plenzo_search_rows w search_term log0 d Hs Hn); [|congruence].
      exists [DriverGet (base_url search_term)]. split; [reflexivity | apply N1].
  - destruct (is_Exception e) eqn:He.
    + rewrite (plenzo_search_get_caught w search_term log0 Hs Hn He).
      eexists [DriverGet _; Stdout _]. split; [reflexivity | apply N2].
    + rewrite (plenzo_search_get_uncaught w search_term log0 Hs Hn He).
      exists [DriverGet (base_url search_term)]. split; [reflexivity | apply N1].
Qed.

Lemma session_is_always_quit_witness :
  plenzo_search (broken interrupted) (lit "laptop") [] =
    (banner (lit "laptop") ++ [ChromeStart; DriverGet (base_url (lit "laptop")); DriverQuit],
     Raise interrupted) /\
  exists mid,
    fst (plenzo_search (broken interrupted) (lit "laptop") []) =
      [] ++ banner (lit "laptop") ++ [ChromeStart] ++ mid ++ [DriverQuit] /\
    ~ In DriverQuit mid /\ ~ In ChromeStart mid.
Proof.
  split; [vm_compute; reflexivity|].
  apply (@session_is_always_quit (broken interrupted) (lit "laptop") [] eq_refl).
Defined.

End Teardown.

(* ================================================================= *)
(** ** Properties of [fetchWithBackoff] *)

Module BackoffFacts.
Import Frontend.

Section Network.

Variable fetch : nat -> settled.

Lemma schedule_app (t1 t2 : list event) :
  schedule (t1 ++ t2) = schedule t1 ++ schedule t2.
Proof. unfold schedule. apply filter_app. Qed.

(** One retry: the state in which the recursive call starts. *)
Lemma retry_step (retries : nat) (s : state) :
  retryable (fetch (calls s)) = true ->
  exists c,
    fetchWithBackoff fetch (S retries) s =
    fetchWithBackoff fetch retries
      (log (SetTimeout (delay_ms (S retries)))
         (log (Warn c (seconds (delay_ms (S retries))) retries) (fetched s))).
Proof.
  intros H. cbn [fetchWithBackoff].
  destruct (fetch (calls s)) as [r|error]; cbn [retryable] in H.
  - exists RateLimit. now rewrite H.
  - now exists NetworkError.
Qed.

(** No retry: the attempt settles the call. *)
Lemma last_step (retries : nat) (s : state) :
  retries = 0 \/ retryable (fetch (calls s)) = false ->
  fetchWithBackoff fetch retries s = (fetched s, fetch (calls s)).
Proof.
  intros [-> | H].
  - cbn [fetchWithBackoff].
    destruct (fetch (calls s)) as [r|error]; [|reflexivity].
    destruct (Z.eqb (status r) 429); reflexivity.
  - destruct retries; cbn [fetchWithBackoff];
      destruct (fetch (calls s)) as [r|error]; cbn [retryable] in H;
      try discriminate; rewrite H; reflexivity.
Qed.

(** The run as a whole: [k] retries, each after its timer, then the
    outcome of the last attempt. *)
Lemma fetchWithBackoff_run (retries : nat) (s : state) :
  let k := leading_failures fetch (calls s) retries in
  let out := fetchWithBackoff fetch retries s in
  calls (fst out) = calls s + k + 1 /\
  schedule (trace (fst out)) =
    schedule (trace s) ++
    Fetch :: flat_map (fun r => [SetTimeout (delay_ms r); Fetch])
               (map (fun i => retries - i) (seq 0 k)) /\
  snd out = fetch (calls s + k).
Proof.
  revert s. induction retries as [|retries IH]; intros s; cbv zeta.
  - rewrite last_step by now left. simpl.
    rewrite schedule_app, !Nat.add_0_r. repeat split; lia.
  - cbn [leading_failures].
    destruct (retryable (fetch (calls s))) eqn:R.
    + destruct (retry_step retries s R) as [c ->].
      set (s3 := log _ (log _ (fetched s))).
      specialize (IH s3). cbv zeta in IH.
      change (calls s3) with (S (calls s)) in IH.
      destruct IH as (Hc & Ht & Ho).
      split; [lia|]. split.
      * rewrite Ht. unfold s3. cbn [trace log fetched].
        rewrite !schedule_app. cbn [schedule filter].
        rewrite <- !app_assoc. cbn [app seq map flat_map].
        rewrite <- seq_shift, map_map. now rewrite Nat.sub_0_r.
      * rewrite Ho. f_equal. lia.
    + rewrite last_step by now right. simpl.
      rewrite schedule_app, !Nat.add_0_r. repeat split; lia.
Qed.

Lemma leading_failures_le (n budget : nat) :
  leading_failures fetch n budget <= budget.
Proof.
  revert n. induction budget as [|b IH]; intros n; simpl; [lia|].
  destruct (retryable (fetch n)); [specialize (IH (S n))|]; lia.
Qed.

Lemma leading_failures_all (n budget : nat) :
  (forall i, i < budget -> retryable (fetch (n + i)) = true) ->
  leading_failures fetch n budget = budget.
Proof.
  revert n. induction budget as [|b IH]; intros n H; simpl; [reflexivity|].
  pose proof (H 0 ltac:(lia)) as H0. rewrite Nat.add_0_r in H0. rewrite H0.
  f_equal. apply IH. intros i Hi.
  replace (S n + i) with (n + S i) by lia. apply H. lia.
Qed.

End Network.

(** C4: with the default of 3 retries, whatever the network does, the
    function awaits the timers 1000 ms, 2000 ms, 4000 ms, in this order and
    one before each retry, for as many retries as it makes; it makes one
    retry per failed attempt among the first three, so at most 3 retries
    and at most 4 calls of [fetch]. *)
Theorem backoff_delays (fetch : nat -> settled) :
  let k := leading_failures fetch 0 3 in
  let s := fst (fetchWithBackoff fetch default_retries initial) in
  k <= 3 /\
  calls s = k + 1 /\
  schedule (trace s) =
    Fetch :: flat_map (fun ms => [SetTimeout ms; Fetch])
               (firstn k [1000; 2000; 4000]%Q) /\
  map seconds (firstn k [1000; 2000; 4000]%Q) = firstn k [1; 2; 4]%Q.
Proof.
  cbv zeta.
  pose proof (leading_failures_le fetch 0 3) as Hk.
  destruct (fetchWithBackoff_run fetch default_retries initial) as (Hc & Ht & _).
  change (calls initial) with 0 in *. change (trace initial) with (@nil event) in *.
  unfold default_retries in *.
  remember (leading_failures fetch 0 3) as k eqn:Ek. clear Ek.
  split; [exact Hk|]. split; [exact Hc|]. split.
  - rewrite Ht.
    destruct k as [|[|[|[|k]]]];
      [reflexivity | reflexivity | reflexivity | reflexivity | lia].
  - destruct k as [|[|[|[|k]]]];
      [reflexivity | reflexivity | reflexivity | reflexivity | lia].
Qed.

(** On a network that is down the default call makes its four attempts,
    with the warnings and the timers between them, and is rejected. *)
Example backoff_offline :
  fetchWithBackoff offline default_retries initial =
  ({| calls := 4;
      trace := [Fetch; Warn NetworkError 1 2; SetTimeout 1000;
                Fetch; Warn NetworkError 2 1; SetTimeout 2000;
                Fetch; Warn NetworkError 4 0; SetTimeout 4000;
                Fetch]%Q |},
   Rejected (lit "Failed to fetch")).
Proof. vm_compute. reflexivity. Qed.

(** One 429 and then a 200: one retry, after one second. *)
Example backoff_one_retry :
  fetchWithBackoff (answers 1 429) default_retries initial =
  ({| calls := 2;
      trace := [Fetch; Warn RateLimit 1 2; SetTimeout 1000; Fetch]%Q |},
   Fulfilled {| status := 200; body := lit "{}" |}).
Proof. vm_compute. reflexivity. Qed.

(** C5: with no retries remaining the function calls [fetch] once and
    settles as that call does: a response with status 429 is returned as it
    is, a rejection is passed on as a rejection.  In particular, when the
    first three attempts of a call with the default retries all fail, the
    outcome is that of the fourth attempt. *)
Theorem no_retries_left (fetch : nat -> settled) (s : state) :
  (forall r, fetch (calls s) = Fulfilled r -> status r = 429%Z ->
     fetchWithBackoff fetch 0 s = (fetched s, Fulfilled r)) /\
  (forall error, fetch (calls s) = Rejected error ->
     fetchWithBackoff fetch 0 s = (fetched s, Rejected error)) /\
  ((forall n, n < 3 -> retryable (fetch n) = true) ->
   snd (fetchWithBackoff fetch default_retries initial) = fetch 3).
Proof.
  split; [|split].
  - intros r H _. rewrite last_step by now left. now rewrite H.
  - intros error H. rewrite last_step by now left. now rewrite H.
  - intros H.
    destruct (fetchWithBackoff_run fetch default_retries initial) as (_ & _ & Ho).
    rewrite Ho. unfold default_retries. change (calls initial) with 0.
    rewrite leading_failures_all; [reflexivity | exact H].
Qed.

Lemma no_retries_left_witness :
  fetchWithBackoff (answers 4 429) 0 initial =
    (fetched initial, Fulfilled {| status := 429; body := lit "busy" |}) /\
  fetchWithBackoff offline 0 initial =
    (fetched initial, Rejected (lit "Failed to fetch")) /\
  snd (fetchWithBackoff (answers 4 429) default_retries initial) =
    Fulfilled {| status := 429; body := lit "busy" |} /\
  snd (fetchWithBackoff offline default_retries initial) =
    Rejected (lit "Failed to fetch").
Proof.
  split; [|split; [|split]].
  - apply (proj1 (no_retries_left (answers 4 429) initial)); reflexivity.
  - apply (proj1 (proj2 (no_retries_left offline initial))); reflexivity.
  - apply (proj2 (proj2 (no_retries_left (answers 4 429) initial))).
    intros [|[|[|n]]] Hn; [reflexivity | reflexivity | reflexivity | lia].
  - apply (proj2 (proj2 (no_retries_left offline initial))).
    intros n _. reflexivity.
Defined.

(** C10: a response whose status is not 429 is returned at once, whatever
    the number of retries left: one call of [fetch], no warning, no timer,
    no retry. *)
Theorem other_status_returned_at_once
  (fetch : nat -> settled) (retries : nat) (s : state) (r : response) :
  fetch (calls s) = Fulfilled r ->
  status r <> 429%Z ->
  fetchWithBackoff fetch retries s = (fetched s, Fulfilled r).
Proof.
  intros H Hs. rewrite last_step; [now rewrite H|].
  right. rewrite H. simpl. now apply Z.eqb_neq.
Qed.

Lemma other_status_returned_at_once_witness :
  fetchWithBackoff (answers 1 500) default_retries initial =
    ({| calls := 1; trace := [Fetch] |},
     Fulfilled {| status := 500; body := lit "busy" |}).
Proof.
  apply (@other_status_returned_at_once (answers 1 500) default_retries initial
           {| status := 500; body := lit "busy" |});
    [reflexivity | discriminate].
Defined.

End BackoffFacts.

(* ================================================================= *)
(** ** More on [strip]: blanks around a string do not matter *)

Section StripMore.

Lemma lstrip_skips (l s : str) : whitespace l -> lstrip (l ++ s) = lstrip s.
Proof.
  induction 1 as [|c l Hc _ IH]; simpl; [reflexivity|].
  now rewrite Hc.
Qed.

Lemma lstrip_nil_whitespace (s : str) : lstrip s = [] -> whitespace s.
Proof.
  induction s as [|c s IH]; simpl; [constructor|].
  destruct (isspace c) eqn:Hc; [|discriminate].
  intros H. constructor; [exact Hc | now apply IH].
Qed.

Lemma lstrip_keeps_tail (s r : str) :
  lstrip s <> [] -> lstrip (s ++ r) = lstrip s ++ r.
Proof.
  induction s as [|c s IH]; simpl; [congruence|].
  destruct (isspace c); [exact IH | reflexivity].
Qed.

Lemma whitespace_app (s r : str) : whitespace s -> whitespace r -> whitespace (s ++ r).
Proof. unfold whitespace. intros. apply Forall_app. now split. Qed.

Lemma rstrip_skips (s r : str) : whitespace r -> rstrip (s ++ r) = rstrip s.
Proof.
  intros W. unfold rstrip. rewrite rev_app_distr.
  now rewrite lstrip_skips by now apply whitespace_rev.
Qed.

Lemma strip_surrounded (l s r : str) :
  whitespace l -> whitespace r -> strip (l ++ s ++ r) = strip s.
Proof.
  intros Wl Wr. unfold strip. rewrite (lstrip_skips _ Wl).
  destruct (lstrip s) as [|c s'] eqn:E.
  - apply lstrip_nil_whitespace in E.
    now rewrite (lstrip_whitespace (whitespace_app E Wr)).
  - rewrite lstrip_keeps_tail by congruence. rewrite E.
    now apply rstrip_skips.
Qed.

End StripMore.

(* ================================================================= *)
(** ** More on the route [api_search] *)

Section RouteMore.

Variable w : browser.

(** The route on a query that is not blank, by the outcome of the scraper. *)
Lemma api_search_cases (args : list (str * str)) (log0 : list event) :
  let query := strip (dict_get args (lit "q") (lit "")) in
  truthy query = true ->
  App.api_search w args log0 =
  match plenzo_search w query log0 with
  | (log1, Return ds) => (log1, Return (found query ds))
  | (log1, Raise e) =>
      if is_Exception e
      then (log1 ++ [Stdout (lit "Error in plenzo_search: " ++ exn_msg e)],
            Return server_error)
      else (log1, Raise e)
  end.
Proof.
  cbv zeta. intros Hq. unfold App.api_search, frame. rewrite Hq.
  unfold try_except, bind, call, ret, print, emit.
  change (negb true) with false. cbv beta iota.
  destruct (plenzo_search w (strip (dict_get args (lit "q") (lit ""))) log0)
    as [log1 [ds|e]]; [reflexivity|].
  destruct (is_Exception e); reflexivity.
Qed.

Lemma truthy_cases (s : str) : s = [] \/ truthy s = true.
Proof. destruct s; [now left | now right]. Qed.

Lemma plenzo_search_length (search_term : str) (log0 : list event) (ds : list deal) :
  snd (plenzo_search w search_term log0) = Return ds -> List.length ds <= 3.
Proof.
  intros H. apply plenzo_search_returns in H as [_ [-> | [d [_ ->]]]].
  - simpl. lia.
  - pose proof (deals_of_length w (enumerate (deal_rows d))) as H.
    rewrite enumerate_length in H. pose proof (deal_rows_length d). lia.
Qed.

End RouteMore.

Section RouteProperties.

(** X1: when the browser session cannot be started with an [Exception],
    the route still answers: status 500 with the fixed body
    [{"error": "Search failed on the server."}]; the text of the exception
    goes to the console only, and no navigation or teardown takes place. *)
Theorem session_failure_gives_500
  (w : browser) (args : list (str * str)) (log0 : list event) (e : exn) :
  truthy (strip (dict_get args (lit "q") (lit ""))) = true ->
  chrome_start w = Some e ->
  is_Exception e = true ->
  App.api_search w args log0 =
  (log0 ++ banner (strip (dict_get args (lit "q") (lit ""))) ++
     [Stdout (lit "Error in plenzo_search: " ++ exn_msg e)],
   Return server_error).
Proof.
  intros Hq Hs He. rewrite (api_search_cases w args log0 Hq).
  rewrite (plenzo_search_no_session w _ log0 Hs). rewrite He.
  now rewrite <- app_assoc.
Qed.

Lemma session_failure_gives_500_witness :
  App.api_search
    {| chrome_start := Some connection_refused;
       navigate := fun _ => Loaded page_five;
       resolve_url := slickdeals |}
    [(lit "q", lit "laptop")] [] =
  (banner (lit "laptop") ++
     [Stdout (lit "Error in plenzo_search: " ++ exn_msg connection_refused)],
   Return server_error).
Proof.
  apply (@session_failure_gives_500
           {| chrome_start := Some connection_refused;
              navigate := fun _ => Loaded page_five;
              resolve_url := slickdeals |}
           [(lit "q", lit "laptop")] [] connection_refused);
    reflexivity.
Defined.

(** X2: an exception outside [Exception] (a [KeyboardInterrupt], say)
    raised by the navigation is answered by no response at all: it leaves
    [api_search] as it left [plenzo_search], after the browser was quit, and
    nothing is printed about it. *)
Theorem interrupt_passes_through
  (w : browser) (args : list (str * str)) (log0 : list event) (e : exn) :
  let query := strip (dict_get args (lit "q") (lit "")) in
  truthy query = true ->
  chrome_start w = None ->
  navigate w (base_url query) = LoadRaises e ->
  is_Exception e = false ->
  App.api_search w args log0 =
  (log0 ++ banner query ++ [ChromeStart; DriverGet (base_url query); DriverQuit],
   Raise e).
Proof.
  cbv zeta. intros Hq Hs Hn He. rewrite (api_search_cases w args log0 Hq).
  rewrite (plenzo_search_get_uncaught w _ log0 Hs Hn He). now rewrite He.
Qed.

Lemma interrupt_passes_through_witness :
  App.api_search (broken interrupted) [(lit "q", lit " laptop")] [] =
  (banner (lit "laptop") ++
     [ChromeStart; DriverGet (base_url (lit "laptop")); DriverQuit],
   Raise interrupted).
Proof.
  apply (@interrupt_passes_through (broken interrupted)
           [(lit "q", lit " laptop")] [] interrupted);
    reflexivity.
Defined.

(** X3: whenever the route answers, the answer is one of three, and each
    is tied to what happened: the 400 body, when the stripped query is
    empty; the fixed 500 body, when [plenzo_search] raised an [Exception];
    or status 200 with the stripped query and the JSON of exactly the deals
    that [plenzo_search] returned for it, at most three.  What an exception
    says therefore reaches no response. *)
Theorem api_search_answers
  (w : browser) (args : list (str * str)) (log0 : list event)
  (resp : App.response) :
  let query := strip (dict_get args (lit "q") (lit "")) in
  snd (App.api_search w args log0) = Return resp ->
  (query = [] /\ resp = bad_request) \/
  (query <> [] /\ resp = server_error /\
   exists e, snd (plenzo_search w query log0) = Raise e /\ is_Exception e = true) \/
  (query <> [] /\
   exists ds,
     snd (plenzo_search w query log0) = Return ds /\
     List.length ds <= 3 /\
     resp = found query ds).
Proof.
  cbv zeta.
  destruct (truthy_cases (strip (dict_get args (lit "q") (lit "")))) as [E | Hq].
  - unfold App.api_search, frame. rewrite E. simpl. intros H. left.
    split; [reflexivity|]. injection H as <-. reflexivity.
  - assert (Hne : strip (dict_get args (lit "q") (lit "")) <> [])
      by (intros E; rewrite E in Hq; discriminate).
    rewrite (api_search_cases w args log0 Hq).
    destruct (plenzo_search w (strip (dict_get args (lit "q") (lit ""))) log0)
      as [log1 [ds|e]] eqn:P.
    + simpl. intros H. right. right. split; [exact Hne|]. exists ds.
      split; [reflexivity|]. split; [|congruence].
      apply (plenzo_search_length w (strip (dict_get args (lit "q") (lit ""))) log0).
      now rewrite P.
    + destruct (is_Exception e) eqn:He; simpl; intros H; [|discriminate].
      right. left. split; [exact Hne|]. split; [congruence|].
      exists e. split; [reflexivity | exact He].
Qed.

Lemma api_search_answers_witness :
  snd (App.api_search (site page_five) [(lit "q", lit " laptop")] []) =
    Return (found (lit "laptop")
              (deals_of (site page_five) (enumerate (deal_rows page_five)))) /\
  exists ds,
    snd (plenzo_search (site page_five) (lit "laptop") []) = Return ds /\
    List.length ds <= 3 /\
    found (lit "laptop")
      (deals_of (site page_five) (enumerate (deal_rows page_five))) =
    found (lit "laptop") ds.
Proof.
  assert (E : snd (App.api_search (site page_five) [(lit "q", lit " laptop")] []) =
              Return (found (lit "laptop")
                        (deals_of (site page_five) (enumerate (deal_rows page_five)))))
    by (vm_compute; reflexivity).
  split; [exact E|].
  destruct (@api_search_answers (site page_five) [(lit "q", lit " laptop")] [] _ E)
    as [[Hq _] | [(_ & Hr & _) | [_ H]]].
  - vm_compute in Hq. discriminate Hq.
  - vm_compute in Hr. discriminate Hr.
  - exact H.
Defined.

(** X4: blanks around the value of [q] change nothing: the route does,
    prints and answers the same with and without them. *)
Theorem blanks_around_query_ignored
  (w : browser) (args1 args2 : list (str * str)) (l r : str)
  (log0 : list event) :
  whitespace l ->
  whitespace r ->
  dict_get args1 (lit "q") (lit "") = l ++ dict_get args2 (lit "q") (lit "") ++ r ->
  App.api_search w args1 log0 = App.api_search w args2 log0.
Proof.
  intros Wl Wr E. unfold App.api_search. rewrite E.
  now rewrite (strip_surrounded _ Wl Wr).
Qed.

Lemma blanks_around_query_ignored_witness :
  App.api_search (site page_five) [(lit "q", lit "  gaming laptop ")] [] =
  App.api_search (site page_five) [(lit "q", lit "gaming laptop")] [].
Proof.
  apply (@blanks_around_query_ignored (site page_five)
           [(lit "q", lit "  gaming laptop ")] [(lit "q", lit "gaming laptop")]
           (lit "  ") (lit " ") []);
    [repeat constructor | repeat constructor | reflexivity].
Defined.

End RouteProperties.

(* ================================================================= *)
(** ** More on [plenzo_search] *)

Section RowsMore.

Variable w : browser.

(** Four successful look-ups make a deal, whatever the attributes are. *)
Lemma deal_of_row_found (index : nat) (row c im wr a : element) :
  find_element row CLASS_NAME (lit "dealImg") = Return c ->
  find_element c TAG_NAME (lit "img") = Return im ->
  find_element row CLASS_NAME (lit "dealWrapper") = Return wr ->
  find_element wr TAG_NAME (lit "a") = Return a ->
  deal_of_row w index row =
  Some {| rank := index + 1;
          title := strip (text a);
          link := get_attribute w a (lit "href");
          imageUrl :=
            if negb (truthy_opt (get_attribute w im (lit "data-original")))
            then get_attribute w im (lit "src")
            else get_attribute w im (lit "data-original") |}.
Proof.
  intros E1 E2 E3 E4.
  unfold deal_of_row, extract_row, bind, lift, load_var, store_var.
  rewrite E1, E2, E3, E4. reflexivity.
Qed.

Lemma indexed_nth (A : Type) (l : list A) (k i : nat) (x : A) :
  nth_error l i = Some x -> In (k + i, x) (combine (seq k (List.length l)) l).
Proof.
  revert k i. induction l as [|y l IH]; intros k [|i]; simpl; try discriminate.
  - intros H. injection H as ->. left. now rewrite Nat.add_0_r.
  - intros H. right. replace (k + S i) with (S k + i) by lia. now apply IH.
Qed.

Lemma deals_of_member (irows : list (nat * element)) (index : nat)
  (row : element) (x : deal) :
  In (index, row) irows -> deal_of_row w index row = Some x ->
  In x (deals_of w irows).
Proof.
  intros Hin Hx. unfold deals_of. apply in_flat_map.
  exists (index, row). split; [exact Hin|]. rewrite Hx. now left.
Qed.

End RowsMore.

Section BrowserIndependence.

Variables w1 w2 : browser.
Hypothesis same_resolution : forall u, resolve_url w1 u = resolve_url w2 u.

Lemma get_attribute_ext (e : element) (name : str) :
  get_attribute w1 e name = get_attribute w2 e name.
Proof.
  unfold get_attribute. destruct (assoc (attrs e) name); [|reflexivity].
  now rewrite same_resolution.
Qed.

Lemma deal_of_row_ext (index : nat) (row : element) :
  deal_of_row w1 index row = deal_of_row w2 index row.
Proof.
  destruct (deal_of_row w1 index row) as [x|] eqn:E.
  - apply deal_of_row_fields in E as (c & im & wr & a & E1 & E2 & E3 & E4 & ->).
    rewrite (@deal_of_row_found w2 index _ _ _ _ _ E1 E2 E3 E4).
    now rewrite !get_attribute_ext.
  - apply no_deal_lookup_fails in E. symmetry.
    now apply lookup_fails_no_deal.
Qed.

Lemma deals_of_ext (irows : list (nat * element)) :
  deals_of w1 irows = deals_of w2 irows.
Proof.
  induction irows as [|[index row] irows IH]; simpl; [reflexivity|].
  fold (deals_of w1 irows). fold (deals_of w2 irows).
  now rewrite deal_of_row_ext, IH.
Qed.

End BrowserIndependence.

Section ScraperProperties.

(** X5: when [webdriver.Chrome] raises, [plenzo_search] raises the same
    exception to its caller -- the call stands before the [try] -- after
    printing exactly its two banner lines: the welcome line and the line
    naming the search term.  Nothing else is logged: no session start, no
    navigation, no teardown. *)
Theorem session_failure_is_raised
  (w : browser) (search_term : str) (log0 : list event) (e : exn) :
  chrome_start w = Some e ->
  plenzo_search w search_term log0 =
    (log0 ++
       [Stdout (newline ++ lit "--- Welcome to Plenzo ---");
        Stdout (lit "Finding the best Black Friday Deal for: '" ++ search_term
                  ++ lit "'..." ++ newline)],
     Raise e) /\
  ~ In ChromeStart (fst (plenzo_search w search_term [])) /\
  ~ In DriverQuit (fst (plenzo_search w search_term [])) /\
  forall url, ~ In (DriverGet url) (fst (plenzo_search w search_term [])).
Proof.
  intros Hs. split; [apply (plenzo_search_no_session w search_term log0 Hs)|].
  rewrite (plenzo_search_no_session w search_term [] Hs). cbn [fst app banner].
  split; [|split; [|intros url]]; intros [H | [H | []]]; discriminate.
Qed.

Lemma session_failure_is_raised_witness :
  plenzo_search
    {| chrome_start := Some connection_refused;
       navigate := fun _ => Loaded page_five;
       resolve_url := slickdeals |}
    (lit "laptop") [] =
  ([] ++ [Stdout (newline ++ lit "--- Welcome to Plenzo ---");
          Stdout (lit "Finding the best Black Friday Deal for: '" ++ lit "laptop"
                    ++ lit "'..." ++ newline)],
   Raise connection_refused).
Proof.
  apply (@session_failure_is_raised
           {| chrome_start := Some connection_refused;
              navigate := fun _ => Loaded page_five;
              resolve_url := slickdeals |}
           (lit "laptop") [] connection_refused eq_refl).
Defined.

(** X6: nothing after the third element of class [resultRow] is looked
    at: two pages with the same first three result rows give the same
    deals (for browsers that resolve URLs alike). *)
Theorem rows_after_third_ignored
  (w1 w2 : browser) (search_term : str) (log1 log2 : list event)
  (d1 d2 : document) :
  (forall u, resolve_url w1 u = resolve_url w2 u) ->
  chrome_start w1 = None ->
  chrome_start w2 = None ->
  navigate w1 (base_url search_term) = Loaded d1 ->
  navigate w2 (base_url search_term) = Loaded d2 ->
  firstn 3 (find_elements d1 CLASS_NAME (lit "resultRow")) =
  firstn 3 (find_elements d2 CLASS_NAME (lit "resultRow")) ->
  snd (plenzo_search w1 search_term log1) = snd (plenzo_search w2 search_term log2).
Proof.
  intros Hr Hs1 Hs2 Hn1 Hn2 Hrows.
  rewrite (plenzo_search_loaded w1 search_term log1 Hs1 Hn1).
  rewrite (plenzo_search_loaded w2 search_term log2 Hs2 Hn2).
  unfold deal_rows. rewrite Hrows. f_equal. now apply deals_of_ext.
Qed.

Lemma rows_after_third_ignored_witness :
  snd (plenzo_search (site page_five) (lit "laptop") []) =
  snd (plenzo_search (site (firstn 1 page_five ++ [div "more" []])) (lit "laptop") []) /\
  snd (plenzo_search (site page_five) (lit "laptop") []) =
  snd (plenzo_search
         (site [div "results"
                  [listing (lazy "/i/1.jpg") "/f/1" " Laptop one ";
                   listing_without_image "/f/2" "Laptop two";
                   listing (lazy "/i/3.jpg") "/f/3" "Laptop three"]])
         (lit "laptop") []).
Proof.
  split; [vm_compute; reflexivity|].
  apply (@rows_after_third_ignored
           (site page_five)
           (site [div "results"
                    [listing (lazy "/i/1.jpg") "/f/1" " Laptop one ";
                     listing_without_image "/f/2" "Laptop two";
                     listing (lazy "/i/3.jpg") "/f/3" "Laptop three"]])
           (lit "laptop") [] [] page_five
           [div "results"
              [listing (lazy "/i/1.jpg") "/f/1" " Laptop one ";
               listing_without_image "/f/2" "Laptop two";
               listing (lazy "/i/3.jpg") "/f/3" "Laptop three"]]);
    reflexivity.
Defined.

(** X7: on a loaded page, a row among the first three result rows has a
    deal in the output -- the one carrying its position as rank -- exactly
    when none of its four look-ups fails.  Missing attributes do not drop a
    row. *)
Theorem row_kept_iff_lookups_succeed
  (w : browser) (search_term : str) (log0 : list event) (d : document)
  (ds : list deal) (index : nat) (row : element) :
  chrome_start w = None ->
  navigate w (base_url search_term) = Loaded d ->
  snd (plenzo_search w search_term log0) = Return ds ->
  nth_error (deal_rows d) index = Some row ->
  (exists x, In x ds /\ rank x = index + 1) <-> ~ lookup_fails row.
Proof.
  intros Hs Hn Hds Hrow.
  rewrite (plenzo_search_loaded w search_term log0 Hs Hn) in Hds.
  injection Hds as <-. split.
  - intros [x [Hx Hr]] Hfail. unfold enumerate in Hx.
    apply deals_of_rank in Hx as [_ [row' [Hrow' Hx]]].
    replace (rank x - 1 - 0) with index in Hrow' by lia.
    replace (rank x - 1) with index in Hx by lia.
    assert (row' = row) by congruence. subst row'.
    rewrite (lookup_fails_no_deal w index Hfail) in Hx. discriminate.
  - intros Hok. destruct (deal_of_row w index row) as [x|] eqn:E.
    + exists x. split; [|now apply deal_of_row_rank in E].
      apply (deals_of_member w (enumerate (deal_rows d)) index row); [|exact E].
      apply (indexed_nth (deal_rows d) 0 index Hrow).
    + exfalso. apply Hok. eapply no_deal_lookup_fails; eassumption.
Qed.

Lemma row_kept_iff_lookups_succeed_witness :
  ((exists x,
      In x (deals_of (site page_five) (enumerate (deal_rows page_five))) /\
      rank x = 1 + 1) <->
   ~ lookup_fails (listing_without_image "/f/2" "Laptop two")) /\
  lookup_fails (listing_without_image "/f/2" "Laptop two").
Proof.
  split.
  - apply (@row_kept_iff_lookups_succeed (site page_five) (lit "laptop") []
             page_five _ 1 (listing_without_image "/f/2" "Laptop two"));
      reflexivity.
  - eapply no_dealImg. vm_compute. reflexivity.
Defined.

(** X8: a row whose four look-ups succeed is not dropped for what its
    elements lack: without a usable [data-original] and without [src] the
    deal has no [imageUrl] ([None]), without [href] it has no [link], and a
    blank anchor text gives the empty [title]. *)
Theorem missing_attributes_leave_null_fields
  (w : browser) (index : nat) (row c im wr a : element) :
  find_element row CLASS_NAME (lit "dealImg") = Return c ->
  find_element c TAG_NAME (lit "img") = Return im ->
  find_element row CLASS_NAME (lit "dealWrapper") = Return wr ->
  find_element wr TAG_NAME (lit "a") = Return a ->
  exists x,
    deal_of_row w index row = Some x /\
    rank x = index + 1 /\
    (truthy_opt (assoc (attrs im) (lit "data-original")) = false ->
     assoc (attrs im) (lit "src") = None ->
     imageUrl x = None) /\
    (assoc (attrs a) (lit "href") = None -> link x = None) /\
    (whitespace (text a) -> title x = []).
Proof.
  intros E1 E2 E3 E4. eexists.
  split; [apply (@deal_of_row_found w index _ _ _ _ _ E1 E2 E3 E4)|].
  cbn [rank imageUrl link title]. split; [reflexivity|]. split; [|split].
  - intros Hd Hsrc. unfold get_attribute. rewrite Hsrc.
    destruct (assoc (attrs im) (lit "data-original")) as [[|c0 v]|];
      simpl in Hd; try discriminate; reflexivity.
  - intros Hh. unfold get_attribute. now rewrite Hh.
  - apply strip_whitespace.
Qed.

Lemma missing_attributes_leave_null_fields_witness :
  deal_of_row (site page_five) 0
    (div "resultRow"
       [div "dealImg" [img [(lit "data-original", lit "")]];
        div "dealWrapper" [Node (lit "a") [] [] (lit "  ") []]]) =
  Some {| rank := 1; title := []; link := None; imageUrl := None |} /\
  exists x,
    deal_of_row (site page_five) 0
      (div "resultRow"
         [div "dealImg" [img [(lit "data-original", lit "")]];
          div "dealWrapper" [Node (lit "a") [] [] (lit "  ") []]]) = Some x /\
    rank x = 0 + 1 /\
    (truthy_opt (assoc (attrs (img [(lit "data-original", lit "")]))
                   (lit "data-original")) = false ->
     assoc (attrs (img [(lit "data-original", lit "")])) (lit "src") = None ->
     imageUrl x = None) /\
    (assoc (attrs (Node (lit "a") [] [] (lit "  ") [])) (lit "href") = None ->
     link x = None) /\
    (whitespace (text (Node (lit "a") [] [] (lit "  ") [])) -> title x = []).
Proof.
  split; [vm_compute; reflexivity|].
  apply (@missing_attributes_leave_null_fields (site page_five) 0 _
           (div "dealImg" [img [(lit "data-original", lit "")]])
           (img [(lit "data-original", lit "")])
           (div "dealWrapper" [Node (lit "a") [] [] (lit "  ") []])
           (Node (lit "a") [] [] (lit "  ") []));
    vm_compute; reflexivity.
Defined.

End ScraperProperties.

(* ================================================================= *)
(** ** More on [fetchWithBackoff] *)

Module BackoffMore.
Import Frontend.

Section Counting.

Variable fetch : nat -> settled.

Lemma leading_failures_first_success (n budget k : nat) :
  k <= budget ->
  (forall i, i < k -> retryable (fetch (n + i)) = true) ->
  retryable (fetch (n + k)) = false ->
  leading_failures fetch n budget = k.
Proof.
  revert n budget. induction k as [|k IH]; intros n budget Hk Hfail Hok.
  - rewrite Nat.add_0_r in Hok. destruct budget; simpl; [reflexivity|].
    now rewrite Hok.
  - destruct budget as [|budget]; [lia|]. simpl.
    pose proof (Hfail 0 ltac:(lia)) as H0. rewrite Nat.add_0_r in H0. rewrite H0.
    f_equal. apply IH; [lia | |].
    + intros i Hi. replace (S n + i) with (n + S i) by lia. apply Hfail. lia.
    + now replace (S n + k) with (n + S k) by lia.
Qed.

End Counting.

Section Waiting.

Lemma total_wait_app (t1 t2 : list event) :
  (total_wait (t1 ++ t2) == total_wait t1 + total_wait t2)%Q.
Proof.
  unfold total_wait, timers. rewrite flat_map_app.
  induction (flat_map
               (fun ev => match ev with SetTimeout ms => [ms] | _ => [] end) t1)
    as [|q l IH]; simpl; [lra|].
  rewrite IH. lra.
Qed.

Lemma delay_ms_value (retries : nat) :
  (delay_ms retries == 2 ^ (3 - Z.of_nat retries) * 1000)%Q.
Proof. unfold delay_ms. apply Qred_correct. Qed.

Lemma delay_ms_halves (retries : nat) :
  (delay_ms retries == 2 * delay_ms (S retries))%Q.
Proof.
  rewrite !delay_ms_value.
  replace (3 - Z.of_nat retries)%Z with (1 + (3 - Z.of_nat (S retries)))%Z by lia.
  rewrite Qpower_plus by (intros H; discriminate H).
  change (2 ^ 1)%Q with 2%Q. lra.
Qed.

Lemma delay_ms_positive (retries : nat) : (0 < delay_ms retries)%Q.
Proof.
  rewrite delay_ms_value.
  pose proof (Qpower_0_lt 2 (3 - Z.of_nat retries) ltac:(reflexivity)) as H.
  lra.
Qed.

Lemma delay_ms_at_most_8000 (retries : nat) : (delay_ms retries <= 8000)%Q.
Proof.
  induction retries as [|r IH].
  - rewrite delay_ms_value. vm_compute. discriminate.
  - pose proof (delay_ms_halves r). pose proof (delay_ms_positive (S r)). lra.
Qed.

Variable fetch : nat -> settled.

(** The wait of a run, bounded by what the next longer delay leaves. *)
Lemma wait_bound (retries : nat) (s : state) :
  (total_wait (trace (fst (fetchWithBackoff fetch retries s)))
   <= total_wait (trace s) + (8000 - delay_ms retries))%Q.
Proof.
  revert s. induction retries as [|r IH]; intros s.
  - rewrite BackoffFacts.last_step by now left. cbn [fst fetched trace].
    rewrite total_wait_app. change (total_wait [Fetch]) with 0%Q.
    pose proof (delay_ms_at_most_8000 0). lra.
  - destruct (retryable (fetch (calls s))) eqn:R.
    + destruct (BackoffFacts.retry_step fetch r s R) as [c ->].
      eapply Qle_trans; [apply IH|].
      cbn [log fetched trace]. rewrite !total_wait_app.
      change (total_wait [Fetch]) with 0%Q.
      change (total_wait [Warn c (seconds (delay_ms (S r))) r]) with 0%Q.
      change (total_wait [SetTimeout (delay_ms (S r))])
        with (delay_ms (S r) + 0)%Q.
      pose proof (delay_ms_halves r). lra.
    + rewrite BackoffFacts.last_step by now right. cbn [fst fetched trace].
      rewrite total_wait_app. change (total_wait [Fetch]) with 0%Q.
      pose proof (delay_ms_at_most_8000 (S r)). lra.
Qed.

End Waiting.

(** X9: a call recovers from transient failures: when the first [k]
    attempts fail (status 429 or a rejected [fetch]), the next one does not,
    and [k] is within the retries, the function makes exactly [k + 1] calls
    of [fetch] and returns what that last call gave. *)
Theorem recovers_after_failures
  (fetch : nat -> settled) (retries k : nat) (s : state) :
  k <= retries ->
  (forall i, i < k -> retryable (fetch (calls s + i)) = true) ->
  retryable (fetch (calls s + k)) = false ->
  calls (fst (fetchWithBackoff fetch retries s)) = calls s + k + 1 /\
  snd (fetchWithBackoff fetch retries s) = fetch (calls s + k) /\
  List.length (timers (trace (fst (fetchWithBackoff fetch retries s)))) =
    List.length (timers (trace s)) + k.
Proof.
  intros Hk Hfail Hok.
  destruct (BackoffFacts.fetchWithBackoff_run fetch retries s) as (Hc & Ht & Ho).
  rewrite (leading_failures_first_success fetch (calls s) Hk Hfail Hok) in *.
  split; [exact Hc|]. split; [exact Ho|].
  assert (T : forall t, timers t = timers (schedule t)).
  { intros t. unfold timers, schedule. induction t as [|[| |] t IH]; simpl;
      try rewrite IH; reflexivity. }
  rewrite (T (trace (fst _))), Ht.
  unfold timers at 1. rewrite flat_map_app, length_app.
  fold (timers (schedule (trace s))). rewrite <- T. f_equal. simpl.
  transitivity (List.length (seq 0 k)); [|apply length_seq].
  clear. induction (seq 0 k) as [|i l IH]; simpl; [reflexivity|].
  now rewrite IH.
Qed.

Lemma recovers_after_failures_witness :
  calls (fst (fetchWithBackoff (answers 2 429) default_retries initial)) = 0 + 2 + 1 /\
  snd (fetchWithBackoff (answers 2 429) default_retries initial) =
    Fulfilled {| status := 200; body := lit "{}" |} /\
  List.length (timers (trace (fst (fetchWithBackoff (answers 2 429)
                                     default_retries initial)))) = 0 + 2.
Proof.
  apply (@recovers_after_failures (answers 2 429) default_retries 2 initial).
  - unfold default_retries. lia.
  - intros [|[|i]] Hi; [reflexivity | reflexivity | lia].
  - reflexivity.
Defined.

(** X10: for every number of retries and every network, the function
    makes at least one and at most [retries + 1] calls of [fetch], and what
    it returns is the outcome of the last call it made. *)
Theorem attempts_bounded (fetch : nat -> settled) (retries : nat) (s : state) :
  let out := fetchWithBackoff fetch retries s in
  calls s < calls (fst out) /\
  calls (fst out) <= calls s + retries + 1 /\
  snd out = fetch (calls (fst out) - 1).
Proof.
  cbv zeta.
  destruct (BackoffFacts.fetchWithBackoff_run fetch retries s) as (Hc & _ & Ho).
  pose proof (BackoffFacts.leading_failures_le fetch (calls s) retries).
  rewrite Ho, Hc. repeat split; try lia. f_equal. lia.
Qed.

(** X11: for a call that starts with fewer than 1077 retries -- the
    range in which [Math.pow(2, 3 - retries) * 1000] and the next smaller
    delay are exact in double precision, the default of 3 among them -- the
    delay used with [retries] left is twice the one used with
    [retries + 1] left, and whatever the network does the delays of the
    timers add up to at most [8000 - delay_ms retries] milliseconds: less
    than 8 seconds. *)
Theorem total_wait_bounded (fetch : nat -> settled) (retries : nat) :
  retries < 1077 ->
  let t := trace (fst (fetchWithBackoff fetch retries initial)) in
  (delay_ms retries == 2 * delay_ms (S retries))%Q /\
  (total_wait t <= 8000 - delay_ms retries)%Q /\
  (total_wait t < 8000)%Q.
Proof.
  intros _. cbv zeta. pose proof (wait_bound fetch retries initial) as H.
  change (total_wait (trace initial)) with 0%Q in H.
  pose proof (delay_ms_positive retries).
  split; [apply delay_ms_halves|]. split; lra.
Qed.

Lemma total_wait_bounded_witness :
  (total_wait (trace (fst (fetchWithBackoff offline default_retries initial)))
   == 7000)%Q /\
  (delay_ms default_retries == 2 * delay_ms (S default_retries))%Q /\
  (total_wait (trace (fst (fetchWithBackoff offline default_retries initial)))
   <= 8000 - delay_ms default_retries)%Q /\
  (total_wait (trace (fst (fetchWithBackoff offline default_retries initial)))
   < 8000)%Q.
Proof.
  split; [vm_compute; reflexivity|].
  apply (@total_wait_bounded offline default_retries).
  unfold default_retries. apply Nat.leb_le. vm_compute. reflexivity.
Defined.

End BackoffMore.

(* ================================================================= *)
(** ** The command line *)

Module CliFacts.
Import Cli.

Section MainFacts.

Variable w : browser.
Variable json_dumps : list deal -> str.

Lemma banner_without_header (search_term : str) (rest : list event) :
  (forall ev, In ev rest -> match ev with Stdout _ => False | _ => True end) ->
  ~ In (Ran header) (map Ran (banner search_term ++ rest)).
Proof.
  intros Hrest Hin. apply in_map_iff in Hin as [ev [E Hin]].
  injection E as ->. apply in_app_or in Hin as [Hin | Hin].
  - unfold banner, header in Hin. destruct Hin as [H | [H | []]]; discriminate H.
  - apply Hrest in Hin. exact Hin.
Qed.

(** What [report] shows when the search raises. *)
Lemma report_raises (term : str) (shown : list cli_event) (e : exn) :
  report w json_dumps term = (shown, Raise e) -> ~ In (Ran header) shown.
Proof.
  unfold report.
  destruct (chrome_start w) as [e0|] eqn:Hs.
  - rewrite (plenzo_search_no_session w term [] Hs). intros H.
    injection H as <- _. intros Hin.
    apply (@banner_without_header term []); [intros ev [] | exact Hin].
  - destruct (navigate w (base_url term)) as [d|e0] eqn:Hn.
    + pose proof (plenzo_search_loaded w term [] Hs Hn) as P.
      destruct (plenzo_search w term []) as [evs [ds|e1]]; discriminate.
    + destruct (is_Exception e0) eqn:He.
      * rewrite (plenzo_search_get_caught w term [] Hs Hn He). discriminate.
      * rewrite (plenzo_search_get_uncaught w term [] Hs Hn He). intros H.
        injection H as <- _. intros Hin.
        apply (@banner_without_header term
                 [ChromeStart; DriverGet (base_url term); DriverQuit]);
          [intros ev [<- | [<- | [<- | []]]]; exact I | exact Hin].
Qed.

Lemma report_returns (term : str) (shown : list cli_event) (u : unit) :
  report w json_dumps term = (shown, Return u) ->
  exists before ds,
    List.length ds <= 3 /\
    snd (plenzo_search w term []) = Return ds /\
    shown = before ++ [Ran header; Ran (Stdout (json_dumps ds))].
Proof.
  unfold report.
  destruct (plenzo_search w term []) as [evs [ds|e]] eqn:P; [|discriminate].
  intros H. injection H as <-. exists (map Ran evs), ds.
  split; [|split; [reflexivity | now rewrite map_app]].
  apply (plenzo_search_length w term []). now rewrite P.
Qed.

End MainFacts.

(** X12: the command line never searches for the empty term.  With
    arguments the term is the arguments joined by single blanks and nothing
    is asked; without, it is what [input] returned, after the prompt; and
    in both cases an empty term is replaced by [laptop].  A term made of
    blanks only is searched as it is. *)
Theorem main_term_never_empty
  (w : browser) (json_dumps : list deal -> str)
  (argv : list str) (stdin : result str) :
  1 < List.length argv \/ (exists t, stdin = Return t) ->
  exists asked term,
    term <> [] /\
    main w json_dumps argv stdin =
      (asked ++ fst (report w json_dumps term), snd (report w json_dumps term)) /\
    ((1 < List.length argv /\ asked = [] /\
      (term = join (lit " ") (skipn 1 argv) \/
       join (lit " ") (skipn 1 argv) = [] /\ term = lit "laptop")) \/
     (List.length argv <= 1 /\
      asked = [Prompt (lit "Enter item to find deals for: ")] /\
      exists t, stdin = Return t /\ (term = t \/ t = [] /\ term = lit "laptop"))).
Proof.
  intros H. unfold main.
  destruct (1 <? List.length argv) eqn:L.
  - apply Nat.ltb_lt in L. exists [].
    destruct (join (lit " ") (skipn 1 argv)) as [|c t] eqn:J.
    + exists (lit "laptop"). split; [discriminate|]. split.
      * simpl. now destruct (report w json_dumps (lit "laptop")).
      * left. repeat split; try assumption. right. now split.
    + exists (c :: t). split; [discriminate|]. split.
      * simpl. now destruct (report w json_dumps (c :: t)).
      * left. repeat split; try assumption. now left.
  - apply Nat.ltb_ge in L. destruct H as [H | [t ->]]; [lia|].
    exists [Prompt (lit "Enter item to find deals for: ")].
    destruct t as [|c t].
    + exists (lit "laptop"). split; [discriminate|]. split.
      * simpl. now destruct (report w json_dumps (lit "laptop")).
      * right. repeat split; try assumption. exists []. split; [reflexivity|].
        right. now split.
    + exists (c :: t). split; [discriminate|]. split.
      * simpl. now destruct (report w json_dumps (c :: t)).
      * right. repeat split; try assumption. exists (c :: t).
        split; [reflexivity | now left].
Qed.

Lemma main_term_never_empty_witness :
  main (site page_empty) (fun _ => lit "[]")
    [lit "plenzo_nogui.py"; lit "gaming"; lit "laptop"] (Return (lit "unused")) =
  report (site page_empty) (fun _ => lit "[]") (lit "gaming laptop") /\
  main (site page_empty) (fun _ => lit "[]") [lit "plenzo_nogui.py"] (Return (lit "")) =
  (Prompt (lit "Enter item to find deals for: ")
     :: fst (report (site page_empty) (fun _ => lit "[]") (lit "laptop")),
   Return tt) /\
  exists asked term,
    term <> [] /\
    main (site page_empty) (fun _ => lit "[]") [lit "plenzo_nogui.py"; lit ""]
      (Return (lit "unused")) =
      (asked ++ fst (report (site page_empty) (fun _ => lit "[]") term),
       snd (report (site page_empty) (fun _ => lit "[]") term)) /\
    ((1 < List.length [lit "plenzo_nogui.py"; lit ""] /\ asked = [] /\
      (term = join (lit " ") (skipn 1 [lit "plenzo_nogui.py"; lit ""]) \/
       join (lit " ") (skipn 1 [lit "plenzo_nogui.py"; lit ""]) = [] /\
       term = lit "laptop")) \/
     (List.length [lit "plenzo_nogui.py"; lit ""] <= 1 /\
      asked = [Prompt (lit "Enter item to find deals for: ")] /\
      exists t, Return (lit "unused") = Return t /\
                (term = t \/ t = [] /\ term = lit "laptop"))).
Proof.
  split; [vm_compute; reflexivity|]. split; [vm_compute; reflexivity|].
  apply (@main_term_never_empty (site page_empty) (fun _ => lit "[]")
           [lit "plenzo_nogui.py"; lit ""] (Return (lit "unused"))).
  left. simpl. lia.
Defined.

(** X13: the command line has no handler of its own.  When it ends
    normally, the last two lines it printed are the header
    [--- Top 3 Plenzo Deals ---] and [json.dumps] of the deals that
    [plenzo_search] returned for the term it chose (the joined arguments or
    the input, [laptop] for an empty one), which are at most three; when it
    ends with an exception -- of [input], of the browser start, or one that
    is no [Exception] -- the header was never printed. *)
Theorem main_prints_results_last
  (w : browser) (json_dumps : list deal -> str)
  (argv : list str) (stdin : result str) :
  match main w json_dumps argv stdin with
  | (shown, Return _) =>
      exists before term ds,
        ((1 < List.length argv /\
          term = (if negb (truthy (join (lit " ") (skipn 1 argv)))
                  then lit "laptop" else join (lit " ") (skipn 1 argv))) \/
         (List.length argv <= 1 /\
          exists t, stdin = Return t /\
                    term = (if negb (truthy t) then lit "laptop" else t))) /\
        snd (plenzo_search w term []) = Return ds /\
        List.length ds <= 3 /\
        shown = before ++ [Ran header; Ran (Stdout (json_dumps ds))]
  | (shown, Raise e) => ~ In (Ran header) shown
  end.
Proof.
  assert (R : forall asked term,
    (forall ev, In ev asked -> ev <> Ran header) ->
    match (let '(shown, r) := report w json_dumps term in (asked ++ shown, r)) with
    | (shown, Return _) =>
        exists before ds,
          snd (plenzo_search w term []) = Return ds /\
          List.length ds <= 3 /\
          shown = before ++ [Ran header; Ran (Stdout (json_dumps ds))]
    | (shown, Raise e) => ~ In (Ran header) shown
    end).
  { intros asked term Ha.
    destruct (report w json_dumps term) as [shown [u|e]] eqn:E.
    - apply report_returns in E as (before & ds & Hl & Hs & ->).
      exists (asked ++ before), ds. split; [exact Hs|]. split; [exact Hl|].
      now rewrite app_assoc.
    - apply report_raises in E. intros Hin.
      apply in_app_or in Hin as [Hin | Hin]; [|now apply E].
      now apply (Ha _ Hin). }
  unfold main. destruct (1 <? List.length argv) eqn:L.
  - apply Nat.ltb_lt in L.
    pose proof (R [] (if negb (truthy (join (lit " ") (skipn 1 argv)))
                      then lit "laptop" else join (lit " ") (skipn 1 argv))
                  ltac:(intros ev [])) as H.
    cbv beta iota zeta.
    destruct (report w json_dumps
                (if negb (truthy (join (lit " ") (skipn 1 argv)))
                 then lit "laptop" else join (lit " ") (skipn 1 argv)))
      as [shown [u|e]]; [|exact H].
    destruct H as (before & ds & Hs & Hl & Hshown).
    exists before,
      (if negb (truthy (join (lit " ") (skipn 1 argv)))
       then lit "laptop" else join (lit " ") (skipn 1 argv)), ds.
    split; [left; split; [exact L | reflexivity]|].
    split; [exact Hs|]. split; [exact Hl | exact Hshown].
  - apply Nat.ltb_ge in L. destruct stdin as [t|e].
    + pose proof (R [Prompt (lit "Enter item to find deals for: ")]
                    (if negb (truthy t) then lit "laptop" else t)) as H.
      cbv beta iota zeta.
      destruct (report w json_dumps (if negb (truthy t) then lit "laptop" else t))
        as [shown [u|e]].
      * destruct H as (before & ds & Hs & Hl & Hshown);
          [intros ev [<- | []]; discriminate|].
        exists before, (if negb (truthy t) then lit "laptop" else t), ds.
        split; [right; split; [exact L|]; exists t; split; reflexivity|].
        split; [exact Hs|]. split; [exact Hl | exact Hshown].
      * apply H. intros ev [<- | []]. discriminate.
    + intros [H | []]. discriminate.
Qed.

End CliFacts.

(* ================================================================= *)
(** ** The search of the front-end *)

Module UiFacts.
Import Frontend Ui.

Ltac cases :=
  repeat match goal with
         | |- context [match ?x with _ => _ end] => destruct x eqn:?
         end.

(** The paths of the [try] block, for the parser and the outcome [o] of the
    fetch. *)
Ltac walk parse o :=
  let r := fresh "r" in
  let result := fresh "result" in
  destruct o as [r|?];
  [destruct (negb (ok r));
   [|destruct (parse (String (body r))) as [result|?];
     [destruct result;
      try (destruct (truthy (jsonText_of _));
           [destruct (parse (jsonText_of _))|])|]]|].

Section ComponentFacts.

Variable fetch : nat -> settled.
Variable JSON_parse : value -> parsed.
Variable cannot_read : value -> str.

Local Abbreviation request := (Ui.request fetch JSON_parse cannot_read).
Local Abbreviation handleSearch := (Ui.handleSearch fetch JSON_parse cannot_read).

(** What the [try] block leaves alone. *)
Lemma request_frame (s : ui) :
  loading (fst (request s)) = loading s /\
  console (fst (request s)) = console s /\
  net (fst (request s)) = fst (fetchWithBackoff fetch default_retries (net s)).
Proof.
  unfold request.
  destruct (fetchWithBackoff fetch default_retries (net s)) as [n o].
  cases; repeat split.
Qed.

(** What the [try] block does to [deal] and [error]. *)
Lemma request_outcome (s : ui) :
  match snd (request s) with
  | Throw _ => deal (fst (request s)) = deal s /\ error (fst (request s)) = error s
  | Normal =>
      (deal (fst (request s)) = deal s /\ error (fst (request s)) = Some empty_answer) \/
      error (fst (request s)) = error s
  end.
Proof.
  unfold request.
  destruct (fetchWithBackoff fetch default_retries (net s)) as [n o].
  walk JSON_parse o; cbn [fst snd setDeal setError with_net deal error];
    first [split; reflexivity | right; reflexivity | left; split; reflexivity].
Qed.

(** The state after [handleSearch], from the outcome of the [try] block on
    the cleared state. *)
Lemma handleSearch_unfold (s : ui) :
  let s0 := setDeal Null (setError None (setLoading true s)) in
  handleSearch s =
  setLoading false
    match snd (request s0) with
    | Normal => fst (request s0)
    | Throw message =>
        if Py.truthy message
        then setError (Some (lit "API Error: " ++ message))
               (console_error message (fst (request s0)))
        else setError (Some no_connection)
               (console_error message (fst (request s0)))
    end.
Proof.
  cbv zeta. unfold Ui.handleSearch.
  destruct (request (setDeal Null (setError None (setLoading true s)))) as [s1 c].
  reflexivity.
Qed.

(** The [try] block when the call of [fetchWithBackoff] is rejected. *)
Lemma request_rejected (s : ui) (message : str) :
  snd (fetchWithBackoff fetch default_retries (net s)) = Rejected message ->
  snd (request s) = Throw message /\
  deal (fst (request s)) = deal s /\ error (fst (request s)) = error s /\
  console (fst (request s)) = console s.
Proof.
  unfold request.
  destruct (fetchWithBackoff fetch default_retries (net s)) as [n o].
  simpl. intros ->. repeat split.
Qed.

(** The [try] block on a response that is not ok. *)
Lemma request_not_ok (s : ui) (r : response) :
  snd (fetchWithBackoff fetch default_retries (net s)) = Fulfilled r ->
  ok r = false ->
  snd (request s) =
    Throw (lit "API returned error status " ++ number_to_string (status r)
             ++ lit ": " ++ firstn 100 (body r) ++ lit "...") /\
  deal (fst (request s)) = deal s /\ error (fst (request s)) = error s /\
  console (fst (request s)) = console s.
Proof.
  unfold request.
  destruct (fetchWithBackoff fetch default_retries (net s)) as [n o].
  simpl. intros -> Hok. rewrite Hok. repeat split.
Qed.

(** The [try] block on an ok response whose body parses to [result]. *)
Lemma request_parsed (s : ui) (r : response) (result : value) :
  snd (fetchWithBackoff fetch default_retries (net s)) = Fulfilled r ->
  ok r = true ->
  JSON_parse (String (body r)) = Parsed result ->
  result <> Null -> result <> Undefined ->
  request s =
  let s1 := with_net (fst (fetchWithBackoff fetch default_retries (net s))) s in
  if truthy (jsonText_of result) then
    match JSON_parse (jsonText_of result) with
    | SyntaxError message => (s1, Throw message)
    | Parsed parsedDeal => (setDeal parsedDeal s1, Normal)
    end
  else (setError (Some empty_answer) s1, Normal).
Proof.
  unfold request.
  destruct (fetchWithBackoff fetch default_retries (net s)) as [n o].
  simpl. intros -> Hok Hp Hn Hu. rewrite Hok, Hp. simpl.
  destruct result; try reflexivity; congruence.
Qed.

End ComponentFacts.

(** X14: whatever the network and the parser do, a search ends with
    [loading] switched off, after at least one and at most four calls of
    [fetch], and with at most one message given to [console.error]. *)
Theorem search_always_finishes
  (fetch : nat -> settled) (JSON_parse : value -> parsed)
  (cannot_read : value -> str) (s : ui) :
  let s' := handleSearch fetch JSON_parse cannot_read s in
  loading s' = false /\
  calls (net s) < calls (net s') <= calls (net s) + 4 /\
  exists logged,
    console s' = console s ++ logged /\ List.length logged <= 1.
Proof.
  cbv zeta. rewrite handleSearch_unfold. cbv zeta.
  set (s0 := setDeal Null (setError None (setLoading true s))).
  destruct (request_frame fetch JSON_parse cannot_read s0) as (_ & Hc & Hn).
  change (net s0) with (net s) in Hn. change (console s0) with (console s) in Hc.
  destruct (BackoffFacts.fetchWithBackoff_run fetch default_retries (net s))
    as (Hcalls & _ & _).
  pose proof (BackoffFacts.leading_failures_le fetch (calls (net s)) default_retries)
    as Hk.
  unfold default_retries in Hk at 2.
  split; [reflexivity|].
  destruct (snd (request fetch JSON_parse cannot_read s0)) as [|message].
  - cbn [setLoading net console]. rewrite Hn, Hc. split; [lia|].
    exists []. rewrite app_nil_r. split; [reflexivity | simpl; lia].
  - destruct (Py.truthy message);
      cbn [setLoading setError console_error net console];
      rewrite Hn, Hc; (split; [lia|]); exists [message]; split;
      try reflexivity; simpl; lia.
Qed.

(** X15: a search never ends with both a deal and an error: when [error]
    is set, [deal] is [null]; and when [error] is not set, nothing was
    thrown, so nothing was given to [console.error]. *)
Theorem never_deal_and_error
  (fetch : nat -> settled) (JSON_parse : value -> parsed)
  (cannot_read : value -> str) (s : ui) :
  let s' := handleSearch fetch JSON_parse cannot_read s in
  (error s' <> None -> deal s' = Null) /\
  (error s' = None -> console s' = console s).
Proof.
  cbv zeta. rewrite handleSearch_unfold. cbv zeta.
  set (s0 := setDeal Null (setError None (setLoading true s))).
  pose proof (request_outcome fetch JSON_parse cannot_read s0) as Ho.
  destruct (request_frame fetch JSON_parse cannot_read s0) as (_ & Hc & _).
  change (console s0) with (console s) in Hc.
  change (deal s0) with Null in Ho. change (error s0) with (@None str) in Ho.
  destruct (snd (request fetch JSON_parse cannot_read s0)) as [|message].
  - cbn [setLoading deal error console]. split.
    + intros He. destruct Ho as [[Hd _] | He']; [exact Hd | congruence].
    + intros _. exact Hc.
  - destruct Ho as [Hd He].
    destruct (Py.truthy message);
      cbn [setLoading setError console_error deal error console];
      (split; [intros _; exact Hd | discriminate]).
Qed.

(** X16: nothing of an earlier search survives a new one: the deal, the
    error and the loading flag after [handleSearch] depend on the state of
    the network only, not on the deal or the error shown before. *)
Theorem stale_results_are_cleared
  (fetch : nat -> settled) (JSON_parse : value -> parsed)
  (cannot_read : value -> str) (s1 s2 : ui) :
  net s1 = net s2 ->
  let t1 := handleSearch fetch JSON_parse cannot_read s1 in
  let t2 := handleSearch fetch JSON_parse cannot_read s2 in
  deal t1 = deal t2 /\ error t1 = error t2 /\
  loading t1 = loading t2 /\ net t1 = net t2.
Proof.
  intros Hn. cbv zeta. unfold Ui.handleSearch, Ui.request.
  cbn [setLoading setError setDeal net]. rewrite Hn.
  destruct (fetchWithBackoff fetch default_retries (net s2)) as [n o].
  walk JSON_parse o;
    repeat match goal with
           | |- context [Py.truthy ?m] => destruct (Py.truthy m)
           end; repeat split.
Qed.

Lemma stale_results_are_cleared_witness :
  let old := {| deal := String (lit "old deal"); loading := false;
                error := Some (lit "old error"); net := initial;
                console := [lit "old"] |} in
  let t1 := handleSearch (serves "{}") sample_parse sample_cannot_read old in
  let t2 := handleSearch (serves "{}") sample_parse sample_cannot_read fresh in
  deal t1 = deal t2 /\ error t1 = error t2 /\
  loading t1 = loading t2 /\ net t1 = net t2.
Proof.
  apply (@stale_results_are_cleared (serves "{}") sample_parse sample_cannot_read
           {| deal := String (lit "old deal"); loading := false;
              error := Some (lit "old error"); net := initial;
              console := [lit "old"] |} fresh eq_refl).
Defined.

(** X17: when [fetchWithBackoff] ends with a response that is not ok
    (a status outside 200..299: a 429 that outlived the retries, a 500, ...),
    the search shows the error
    [API Error: API returned error status <status>: <first 100 units of the body>...],
    shows no deal, and gives that message to [console.error]; the body is
    never parsed. *)
Theorem bad_status_is_reported
  (fetch : nat -> settled) (JSON_parse : value -> parsed)
  (cannot_read : value -> str) (s : ui) (r : response) :
  snd (fetchWithBackoff fetch default_retries (net s)) = Fulfilled r ->
  ok r = false ->
  let message := lit "API returned error status " ++ number_to_string (status r)
                   ++ lit ": " ++ firstn 100 (body r) ++ lit "..." in
  let s' := handleSearch fetch JSON_parse cannot_read s in
  error s' = Some (lit "API Error: " ++ message) /\
  deal s' = Null /\
  console s' = console s ++ [message] /\
  forall other_parse,
    handleSearch fetch other_parse cannot_read s = s'.
Proof.
  intros Hr Hok. cbv zeta.
  assert (E : forall parse,
    handleSearch fetch parse cannot_read s =
    setLoading false
      (setError (Some (lit "API Error: " ++ lit "API returned error status "
                         ++ number_to_string (status r) ++ lit ": "
                         ++ firstn 100 (body r) ++ lit "..."))
         (console_error (lit "API returned error status "
                           ++ number_to_string (status r) ++ lit ": "
                           ++ firstn 100 (body r) ++ lit "...")
            (with_net (fst (fetchWithBackoff fetch default_retries (net s)))
               (setDeal Null (setError None (setLoading true s))))))).
  { intros parse. unfold Ui.handleSearch, Ui.request.
    cbn [setLoading setError setDeal net].
    destruct (fetchWithBackoff fetch default_retries (net s)) as [n o].
    simpl in Hr. subst o. rewrite Hok. reflexivity. }
  rewrite E. repeat split. intros other_parse. now rewrite E.
Qed.

Lemma bad_status_is_reported_witness :
  let s' := handleSearch (answers 9 429) sample_parse sample_cannot_read fresh in
  error s' = Some (lit "API Error: API returned error status 429: busy...") /\
  deal s' = Null /\
  console s' = [lit "API returned error status 429: busy..."] /\
  calls (net s') = 4.
Proof.
  cbv zeta.
  destruct (@bad_status_is_reported (answers 9 429) sample_parse sample_cannot_read
              fresh {| status := 429; body := lit "busy" |} eq_refl eq_refl)
    as (He & Hd & Hc & _).
  split; [exact He|]. split; [exact Hd|]. split; [exact Hc|].
  vm_compute. reflexivity.
Defined.

(** X18: when [fetchWithBackoff] is rejected (the network failed on the
    last attempt), the search shows [API Error: <message>], or the fixed
    text about the connection when the error has no message, shows no deal,
    and gives the error to [console.error]. *)
Theorem rejection_is_reported
  (fetch : nat -> settled) (JSON_parse : value -> parsed)
  (cannot_read : value -> str) (s : ui) (message : str) :
  snd (fetchWithBackoff fetch default_retries (net s)) = Rejected message ->
  let s' := handleSearch fetch JSON_parse cannot_read s in
  error s' = Some (if Py.truthy message
                   then lit "API Error: " ++ message
                   else no_connection) /\
  deal s' = Null /\
  console s' = console s ++ [message].
Proof.
  intros Hr. cbv zeta. rewrite handleSearch_unfold. cbv zeta.
  destruct (@request_rejected fetch JSON_parse cannot_read
              (setDeal Null (setError None (setLoading true s))) message Hr)
    as (Hs & Hd & _ & Hc).
  rewrite Hs. destruct (Py.truthy message);
    cbn [setLoading setError console_error deal error console];
    rewrite Hd, Hc; repeat split.
Qed.

Lemma rejection_is_reported_witness :
  let s' := handleSearch offline sample_parse sample_cannot_read fresh in
  error s' = Some (lit "API Error: Failed to fetch") /\
  deal s' = Null /\
  console s' = [lit "Failed to fetch"].
Proof.
  apply (@rejection_is_reported offline sample_parse sample_cannot_read fresh
           (lit "Failed to fetch") eq_refl).
Defined.

(** X19: an ok response whose JSON lacks the text at
    [candidates[0].content.parts[0].text] -- no [candidates] key, an empty
    [candidates] array, a missing link further down, an empty text -- is
    answered with the error
    [Could not parse the deal information from the model response. Response was empty.],
    without a deal and without a call of [console.error]. *)
Theorem empty_answer_is_reported
  (fetch : nat -> settled) (JSON_parse : value -> parsed)
  (cannot_read : value -> str) (s : ui) (r : response) (fields : list (str * value)) :
  snd (fetchWithBackoff fetch default_retries (net s)) = Fulfilled r ->
  ok r = true ->
  JSON_parse (String (body r)) = Parsed (Object fields) ->
  own fields (lit "candidates") = Undefined \/
  own fields (lit "candidates") = Null \/
  own fields (lit "candidates") = Array [] \/
  truthy (jsonText_of (Object fields)) = false ->
  let s' := handleSearch fetch JSON_parse cannot_read s in
  error s' = Some empty_answer /\
  deal s' = Null /\
  console s' = console s.
Proof.
  intros Hr Hok Hp Hc. cbv zeta.
  assert (Ht : truthy (jsonText_of (Object fields)) = false).
  { destruct Hc as [H | [H | [H | H]]]; try exact H;
      unfold jsonText_of, member; rewrite H; reflexivity. }
  rewrite handleSearch_unfold. cbv zeta.
  rewrite (@request_parsed fetch JSON_parse cannot_read
             (setDeal Null (setError None (setLoading true s))) r (Object fields)
             Hr Hok Hp ltac:(discriminate) ltac:(discriminate)).
  cbv zeta. rewrite Ht. repeat split.
Qed.

Lemma empty_answer_is_reported_witness :
  let s' := handleSearch (serves "{}") sample_parse sample_cannot_read fresh in
  error s' = Some empty_answer /\
  deal s' = Null /\
  console s' = [].
Proof.
  apply (@empty_answer_is_reported (serves "{}") sample_parse sample_cannot_read
           fresh {| status := 200; body := lit "{}" |} [] eq_refl eq_refl eq_refl).
  left. reflexivity.
Defined.

(** X20: an ok response whose JSON carries a text at
    [candidates[0].content.parts[0].text] that [JSON.parse] accepts ends
    the search with that parsed value as the deal and with no error; when
    the text does not parse, the message of the [SyntaxError] is shown as
    [API Error: ...] and there is no deal. *)
Theorem answer_text_is_parsed
  (fetch : nat -> settled) (JSON_parse : value -> parsed)
  (cannot_read : value -> str) (s : ui) (r : response) (result : value) :
  snd (fetchWithBackoff fetch default_retries (net s)) = Fulfilled r ->
  ok r = true ->
  JSON_parse (String (body r)) = Parsed result ->
  result <> Null -> result <> Undefined ->
  truthy (jsonText_of result) = true ->
  let s' := handleSearch fetch JSON_parse cannot_read s in
  match JSON_parse (jsonText_of result) with
  | Parsed parsedDeal =>
      deal s' = parsedDeal /\ error s' = None /\ console s' = console s
  | SyntaxError message =>
      deal s' = Null /\
      error s' = Some (if Py.truthy message
                       then lit "API Error: " ++ message
                       else no_connection) /\
      console s' = console s ++ [message]
  end.
Proof.
  intros Hr Hok Hp Hn Hu Ht. cbv zeta.
  rewrite handleSearch_unfold. cbv zeta.
  rewrite (@request_parsed fetch JSON_parse cannot_read
             (setDeal Null (setError None (setLoading true s))) r result
             Hr Hok Hp Hn Hu).
  cbv zeta. rewrite Ht.
  destruct (JSON_parse (jsonText_of result)) as [parsedDeal|message].
  - repeat split.
  - cbn [snd fst]. destruct (Py.truthy message); repeat split.
Qed.

Lemma answer_text_is_parsed_witness :
  let s' := handleSearch (serves "answer") sample_parse sample_cannot_read fresh in
  deal s' = Object [(lit "title", String (lit "Camera"));
                    (lit "price", String (lit "$99"))] /\
  error s' = None /\ console s' = [].
Proof.
  apply (@answer_text_is_parsed (serves "answer") sample_parse sample_cannot_read
           fresh {| status := 200; body := lit "answer" |}
           (Object
              [(lit "candidates",
                Array [Object
                         [(lit "content",
                           Object
                             [(lit "parts",
                               Array [Object [(lit "text", String (lit "deal"))]])])]])])
           eq_refl eq_refl eq_refl);
    [discriminate | discriminate | reflexivity].
Defined.

End UiFacts.
